(** * PruebasEstadisticas: the runs test above and below the threshold 0.5

    A shallow embedding of the two [RachasEncimaDebajo] classes of the
    repository,

    - [rachas_encima_debajo.py]   (module [Rachas]), the class [main.py] imports;
    - [prueba_rachas_enc_deb.py]  (module [Prueba]), the step-by-step variant;

    and the properties of the specification that concern them.

    Numeric model.  The samples are finite floating-point numbers; they are
    only ever compared with the threshold 0.5, so they are taken as exact
    rationals ([Q]) and the comparisons are computed.  Counters are Python
    integers ([Z]).  The results of true division, of [sqrt] and of the
    normal distribution functions are floats in the program and real numbers
    ([R]) here: rounding is not modelled.  [scipy.stats.norm] is not part of
    the repository; its [cdf] and [ppf] are a parameter of every function
    that calls them. *)

From Stdlib Require Import List ZArith QArith Reals Lra Lia Bool String.
Import ListNotations.

Set Implicit Arguments.

(** ** Symbols *)

(** The characters ['+'] and ['-'] of the symbol sequences. *)
Inductive simbolo : Type :=
| Mas
| Menos.

Definition simbolo_eqb (a b : simbolo) : bool :=
  match a, b with
  | Mas, Mas | Menos, Menos => true
  | _, _ => false
  end.

Definition simbolo_str (s : simbolo) : string :=
  match s with
  | Mas => "+"
  | Menos => "-"
  end.

(** [secuencia.count(c)] *)
Fixpoint count (c : simbolo) (l : list simbolo) : Z :=
  match l with
  | [] => 0
  | s :: r => (if simbolo_eqb s c then 1 else 0) + count c r
  end.

(** Comparisons of two floats, as booleans. *)
Definition Qgtb (x y : Q) : bool := negb (Qle_bool x y).
Definition Qgeb (x y : Q) : bool := Qle_bool y x.

(** The threshold 0.5. *)
Definition medio : Q := 1 # 2.

(** ** The normal distribution of scipy *)

(** [scipy.stats.norm]: the two methods the program calls. *)
Record distribucion : Type := {
  cdf : R -> R;
  ppf : R -> R
}.

(** A distribution with closed forms, the uniform one on [[-2, 2]], on which
    the statements below are exercised at concrete inputs.  It shares with
    the standard normal the facts the theorems assume: it is symmetric
    around 0 and its 0.975 quantile (1.9) is below 2. *)
Definition cdf_lineal (x : R) : R :=
  if Rle_dec x (-2) then 0
  else if Rle_dec 2 x then 1
  else (x + 2) / 4.

Definition ppf_lineal (p : R) : R := 4 * p - 2.

Definition norm_lineal : distribucion :=
  {| cdf := cdf_lineal; ppf := ppf_lineal |}.

(** ** Specification-level notions *)

(** The number of positions [i], [1 <= i < len l], whose symbol differs from
    the symbol at [i - 1]. *)
Definition cambios (l : list simbolo) : Z :=
  Z.of_nat
    (List.length
       (filter (fun i => negb (simbolo_eqb (nth i l Mas) (nth (i - 1) l Mas)))
               (seq 1 (List.length l - 1)))).

(** A list of runs written back as symbols, each repeated by its length. *)
Definition expandir (grupos : list (simbolo * Z)) : list simbolo :=
  flat_map (fun g => repeat (fst g) (Z.to_nat (snd g))) grupos.

(** The sum of the lengths of a list of runs. *)
Definition suma_longitudes (grupos : list (simbolo * Z)) : Z :=
  fold_right (fun g acc => snd g + acc)%Z 0%Z grupos.

(** The formulas of the test, over the reals. *)
Definition mu_formula (n1 n2 : Z) : R :=
  (2 * IZR n1 * IZR n2 / (IZR n1 + IZR n2) + 1)%R.

Definition sigma2_formula (n1 n2 : Z) : R :=
  (2 * IZR n1 * IZR n2 * (2 * IZR n1 * IZR n2 - IZR n1 - IZR n2)
   / ((IZR n1 + IZR n2) ^ 2 * (IZR n1 + IZR n2 - 1)))%R.

Definition z_formula (B n1 n2 : Z) : R :=
  (Rabs (IZR B - mu_formula n1 n2) / sqrt (sigma2_formula n1 n2))%R.

(** ** rachas_encima_debajo.py *)

Module Rachas.

(** The instance attributes set by [__init__]. *)
Record objeto : Type := {
  datos : list Q;
  alpha : R;
  n_total : Z;
  umbral : Q;
  secuencia : list simbolo;
  n1 : Z;
  n2 : Z;
  N : Z
}.

(** The exception of the constructor:
    [ValueError("El conjunto de datos no puede estar vacio.")]. *)
Inductive excepcion : Type :=
| ValueError_datos_vacios.

(** The three ['error'] dictionaries of [ejecutar], by their message. *)
Inductive error : Type :=
| Error_sin_rachas          (* "No se pueden calcular las rachas. ..." *)
| Error_denominador_cero    (* "Error en el calculo de la varianza. ..." *)
| Error_desviacion_cero.    (* "Error en el calculo del estadistico Z. ..." *)

(** The result dictionary of [ejecutar]. *)
Record resultado : Type := {
  estadistico : R;
  valor_critico : R;
  p_valor : R;
  rechaza_h0 : bool;
  tipo_prueba : string;
  r_alpha : R;
  r_n_total : Z;
  r_umbral : Q;
  r_n1 : Z;
  r_n2 : Z;
  rachas_observadas : Z;
  rachas_esperadas : R;
  desviacion_estandar : R;
  r_secuencia : string
}.

Inductive salida : Type :=
| Dict_error (e : error)
| Dict_resultado (r : resultado).

Definition __init__ (datos : list Q) (alpha : R) : excepcion + objeto :=
  let n_total := Z.of_nat (List.length datos) in
  if (n_total =? 0)%Z then inl ValueError_datos_vacios
  else
    let umbral := medio in
    let secuencia :=
      map (fun dato => if Qgtb dato umbral then Mas else Menos) datos in
    let n1 := count Mas secuencia in
    let n2 := count Menos secuencia in
    inr {| datos := datos; alpha := alpha; n_total := n_total;
           umbral := umbral; secuencia := secuencia;
           n1 := n1; n2 := n2; N := (n1 + n2)%Z |}.

(** The loop of [_contar_rachas]: [previo] is [secuencia[i-1]], the head
    of [resto] is [secuencia[i]]. *)
Fixpoint contar_bucle (previo : simbolo) (resto : list simbolo)
                      (num_rachas : Z) : Z :=
  match resto with
  | [] => num_rachas
  | s :: r =>
      contar_bucle s r
        (if simbolo_eqb s previo then num_rachas else num_rachas + 1)%Z
  end.

Definition _contar_rachas (secuencia : list simbolo) : Z :=
  match secuencia with
  | [] => 0%Z
  | s0 :: r => contar_bucle s0 r 1%Z
  end.

(** [''.join(secuencia[:50]) + ('...' if len(secuencia) > 50 else '')] *)
Definition vista_previa (secuencia : list simbolo) : string :=
  (String.concat "" (map simbolo_str (firstn 50 secuencia))
   ++ (if (50 <? Z.of_nat (List.length secuencia))%Z then "..." else ""))%string.

Section Ejecutar.

Variable norm : distribucion.

Local Open Scope R_scope.

Definition ejecutar (self : objeto) : salida :=
  let R := _contar_rachas (secuencia self) in
  if ((N self =? 0) || (n1 self =? 0) || (n2 self =? 0))%Z then
    Dict_error Error_sin_rachas
  else
    let mu_R :=
      IZR (2 * n1 self * n2 self) / IZR (n1 self + n2 self) + 1 in
    let numerador :=
      (2 * n1 self * n2 self
       * (2 * n1 self * n2 self - n1 self - n2 self))%Z in
    let denominador :=
      ((n1 self + n2 self) ^ 2 * (n1 self + n2 self - 1))%Z in
    if (denominador =? 0)%Z then Dict_error Error_denominador_cero
    else
      let sigma_R_squared := IZR numerador / IZR denominador in
      let sigma_R := sqrt sigma_R_squared in
      if Req_dec_T sigma_R 0 then Dict_error Error_desviacion_cero
      else
        let Z := Rabs (IZR R - mu_R) / sigma_R in
        let valor_critico := ppf norm (1 - alpha self / 2) in
        let p_valor := 2 * (1 - cdf norm (Rabs Z)) in
        let rechaza_h0 := if Rlt_dec valor_critico Z then true else false in
        Dict_resultado
          {| estadistico := Z;
             valor_critico := valor_critico;
             p_valor := p_valor;
             rechaza_h0 := rechaza_h0;
             tipo_prueba := "Rachas Encima/Debajo (Umbral 0.5)";
             r_alpha := alpha self;
             r_n_total := n_total self;
             r_umbral := umbral self;
             r_n1 := n1 self;
             r_n2 := n2 self;
             rachas_observadas := R;
             rachas_esperadas := mu_R;
             desviacion_estandar := sigma_R;
             r_secuencia := vista_previa (secuencia self) |}.

(** A test invocation as [main.py] makes it:
    [RachasEncimaDebajo(datos, alpha).ejecutar()]. *)
Definition invocar (datos : list Q) (alpha : R) : excepcion + salida :=
  match __init__ datos alpha with
  | inl e => inl e
  | inr self => inr (ejecutar self)
  end.

End Ejecutar.

End Rachas.

(** ** prueba_rachas_enc_deb.py *)

Module Prueba.

(** The instance attributes.  [conteo_longitudes] is the [defaultdict(int)]
    in insertion order; [tabla] holds the two columns of the DataFrame
    (LONGITUD, TOTAL) row by row, [None] before [_crear_tabla]. *)
Record objeto : Type := {
  datos : list Q;
  alpha : R;
  numeros : list Q;
  simbolos : list simbolo;
  n1 : Z;
  n2 : Z;
  grupos : list (simbolo * Z);
  B : Z;
  conteo_longitudes : list (Z * Z);
  tabla : option (list (Z * Z));
  mu_B : R;
  sigma2_B : R;
  sigma_B : R;
  z_prueba : R;
  z_teorico : R;
  p_valor : R
}.

(** The exceptions the arithmetic of [_calcular_estadisticos] can raise. *)
Inductive excepcion : Type :=
| ZeroDivisionError          (* str(e) = "division by zero" *)
| ValueError_math_domain.    (* math.sqrt of a negative number *)

(** The dictionary built by the [except] branch of [ejecutar]:
    ['error': True], ['mensaje'] made from [str(e)], ['tipo_prueba'] and
    ['alpha']. *)
Record dict_error : Type := {
  mensaje : excepcion;
  e_tipo_prueba : string;
  e_alpha : R
}.

(** The dictionary built by [_evaluar_hipotesis]. *)
Record resultado : Type := {
  estadistico : R;
  valor_critico : R;
  r_p_valor : R;
  rechaza_h0 : bool;
  tipo_prueba : string;
  r_alpha : R;
  r_B : Z;
  r_mu_B : R;
  r_sigma_B : R;
  r_n1 : Z;
  r_n2 : Z;
  total_datos : Z
}.

Inductive salida : Type :=
| Dict_error (e : dict_error)
| Dict_resultado (r : resultado).

(** How a method that can raise ends: normally, or with an exception; the
    attributes assigned before the exception stay assigned. *)
Inductive paso : Type :=
| Sigue (self : objeto)
| Lanza (e : excepcion) (self : objeto).

Definition __init__ (datos : list Q) (alpha : R) : objeto :=
  {| datos := datos; alpha := alpha; numeros := datos;
     simbolos := []; n1 := 0; n2 := 0; grupos := []; B := 0;
     conteo_longitudes := []; tabla := None;
     mu_B := 0; sigma2_B := 0; sigma_B := 0;
     z_prueba := 0; z_teorico := 0; p_valor := 0 |}.

(** Attribute assignments, [self.x = v]. *)
Definition set_simbolos (v : list simbolo) (s : objeto) : objeto :=
  Build_objeto (datos s) (alpha s) (numeros s) v (n1 s) (n2 s) (grupos s)
    (B s) (conteo_longitudes s) (tabla s) (mu_B s) (sigma2_B s) (sigma_B s)
    (z_prueba s) (z_teorico s) (p_valor s).
Definition set_n1 (v : Z) (s : objeto) : objeto :=
  Build_objeto (datos s) (alpha s) (numeros s) (simbolos s) v (n2 s)
    (grupos s) (B s) (conteo_longitudes s) (tabla s) (mu_B s) (sigma2_B s)
    (sigma_B s) (z_prueba s) (z_teorico s) (p_valor s).
Definition set_n2 (v : Z) (s : objeto) : objeto :=
  Build_objeto (datos s) (alpha s) (numeros s) (simbolos s) (n1 s) v
    (grupos s) (B s) (conteo_longitudes s) (tabla s) (mu_B s) (sigma2_B s)
    (sigma_B s) (z_prueba s) (z_teorico s) (p_valor s).
Definition set_grupos (v : list (simbolo * Z)) (s : objeto) : objeto :=
  Build_objeto (datos s) (alpha s) (numeros s) (simbolos s) (n1 s) (n2 s) v
    (B s) (conteo_longitudes s) (tabla s) (mu_B s) (sigma2_B s) (sigma_B s)
    (z_prueba s) (z_teorico s) (p_valor s).
Definition set_B (v : Z) (s : objeto) : objeto :=
  Build_objeto (datos s) (alpha s) (numeros s) (simbolos s) (n1 s) (n2 s)
    (grupos s) v (conteo_longitudes s) (tabla s) (mu_B s) (sigma2_B s)
    (sigma_B s) (z_prueba s) (z_teorico s) (p_valor s).
Definition set_conteo_longitudes (v : list (Z * Z)) (s : objeto) : objeto :=
  Build_objeto (datos s) (alpha s) (numeros s) (simbolos s) (n1 s) (n2 s)
    (grupos s) (B s) v (tabla s) (mu_B s) (sigma2_B s) (sigma_B s)
    (z_prueba s) (z_teorico s) (p_valor s).
Definition set_tabla (v : option (list (Z * Z))) (s : objeto) : objeto :=
  Build_objeto (datos s) (alpha s) (numeros s) (simbolos s) (n1 s) (n2 s)
    (grupos s) (B s) (conteo_longitudes s) v (mu_B s) (sigma2_B s)
    (sigma_B s) (z_prueba s) (z_teorico s) (p_valor s).
Definition set_mu_B (v : R) (s : objeto) : objeto :=
  Build_objeto (datos s) (alpha s) (numeros s) (simbolos s) (n1 s) (n2 s)
    (grupos s) (B s) (conteo_longitudes s) (tabla s) v (sigma2_B s)
    (sigma_B s) (z_prueba s) (z_teorico s) (p_valor s).
Definition set_sigma2_B (v : R) (s : objeto) : objeto :=
  Build_objeto (datos s) (alpha s) (numeros s) (simbolos s) (n1 s) (n2 s)
    (grupos s) (B s) (conteo_longitudes s) (tabla s) (mu_B s) v
    (sigma_B s) (z_prueba s) (z_teorico s) (p_valor s).
Definition set_sigma_B (v : R) (s : objeto) : objeto :=
  Build_objeto (datos s) (alpha s) (numeros s) (simbolos s) (n1 s) (n2 s)
    (grupos s) (B s) (conteo_longitudes s) (tabla s) (mu_B s) (sigma2_B s)
    v (z_prueba s) (z_teorico s) (p_valor s).
Definition set_z_prueba (v : R) (s : objeto) : objeto :=
  Build_objeto (datos s) (alpha s) (numeros s) (simbolos s) (n1 s) (n2 s)
    (grupos s) (B s) (conteo_longitudes s) (tabla s) (mu_B s) (sigma2_B s)
    (sigma_B s) v (z_teorico s) (p_valor s).
Definition set_z_teorico (v : R) (s : objeto) : objeto :=
  Build_objeto (datos s) (alpha s) (numeros s) (simbolos s) (n1 s) (n2 s)
    (grupos s) (B s) (conteo_longitudes s) (tabla s) (mu_B s) (sigma2_B s)
    (sigma_B s) (z_prueba s) v (p_valor s).
Definition set_p_valor (v : R) (s : objeto) : objeto :=
  Build_objeto (datos s) (alpha s) (numeros s) (simbolos s) (n1 s) (n2 s)
    (grupos s) (B s) (conteo_longitudes s) (tabla s) (mu_B s) (sigma2_B s)
    (sigma_B s) (z_prueba s) (z_teorico s) v.

Definition _convertir_a_simbolos (self : objeto) : objeto :=
  set_simbolos
    (map (fun x => if Qgeb x medio then Mas else Menos) (numeros self)) self.

Definition _contar_simbolos (self : objeto) : objeto :=
  let self := set_n1 (count Mas (simbolos self)) self in
  set_n2 (count Menos (simbolos self)) self.

(** The state of the loop of [_agrupar_simbolos]. *)
Record bucle : Type := {
  b_grupos : list (simbolo * Z);
  b_longitud : Z;
  b_simbolo_actual : simbolo;
  b_B : Z
}.

(** The loop [for i in range(1, len(self.simbolos))], over the symbols
    from index 1 on. *)
Fixpoint agrupar_bucle (resto : list simbolo) (st : bucle) : bucle :=
  match resto with
  | [] => st
  | s :: r =>
      if simbolo_eqb s (b_simbolo_actual st) then
        agrupar_bucle r
          {| b_grupos := b_grupos st;
             b_longitud := b_longitud st + 1;
             b_simbolo_actual := b_simbolo_actual st;
             b_B := b_B st |}
      else
        agrupar_bucle r
          {| b_grupos :=
               b_grupos st ++ [(b_simbolo_actual st, b_longitud st)];
             b_longitud := 1;
             b_simbolo_actual := s;
             b_B := b_B st + 1 |}
  end%Z.

Definition _agrupar_simbolos (self : objeto) : objeto :=
  match simbolos self with
  | [] => self
  | s0 :: resto =>
      let st :=
        agrupar_bucle resto
          {| b_grupos := []; b_longitud := 1;
             b_simbolo_actual := s0; b_B := 0 |} in
      let self :=
        set_grupos
          (b_grupos st ++ [(b_simbolo_actual st, b_longitud st)]) self in
      set_B (b_B st + 1) self
  end.

(** [d[k] += 1] on a [defaultdict(int)]. *)
Fixpoint incrementar (k : Z) (d : list (Z * Z)) : list (Z * Z) :=
  match d with
  | [] => [(k, 1%Z)]
  | (k', v) :: r =>
      if (k' =? k)%Z then (k', (v + 1)%Z) :: r
      else (k', v) :: incrementar k r
  end.

Definition _contar_longitudes (self : objeto) : objeto :=
  set_conteo_longitudes
    (fold_left (fun d g => incrementar (snd g) d) (grupos self) []) self.

(** [sorted(d.keys())] paired with the values, by insertion. *)
Fixpoint insertar (kv : Z * Z) (l : list (Z * Z)) : list (Z * Z) :=
  match l with
  | [] => [kv]
  | kv' :: r =>
      if (fst kv <=? fst kv')%Z then kv :: l else kv' :: insertar kv r
  end.

Definition _crear_tabla (self : objeto) : objeto :=
  set_tabla (Some (fold_right insertar [] (conteo_longitudes self))) self.

Section Ejecutar.

Variable norm : distribucion.

Local Open Scope R_scope.

Definition _calcular_estadisticos (self : objeto) : paso :=
  if (n1 self + n2 self =? 0)%Z then Lanza ZeroDivisionError self
  else
    let self :=
      set_mu_B (IZR (2 * n1 self * n2 self) / IZR (n1 self + n2 self) + 1)
               self in
    if ((n1 self + n2 self) ^ 2 * (n1 self + n2 self - 1) =? 0)%Z then
      Lanza ZeroDivisionError self
    else
      let self :=
        set_sigma2_B
          (IZR (2 * n1 self * n2 self
                * (2 * n1 self * n2 self - n1 self - n2 self))
           / IZR ((n1 self + n2 self) ^ 2 * (n1 self + n2 self - 1)))
          self in
      if Rlt_dec (sigma2_B self) 0 then Lanza ValueError_math_domain self
      else
        let self := set_sigma_B (sqrt (sigma2_B self)) self in
        let self :=
          set_z_prueba
            (if Req_dec_T (sigma_B self) 0 then 0
             else Rabs ((IZR (B self) - mu_B self) / sigma_B self))
            self in
        let self :=
          set_z_teorico (ppf norm (1 - alpha self / 2)) self in
        let self :=
          set_p_valor (2 * (1 - cdf norm (Rabs (z_prueba self)))) self in
        Sigue self.

Definition _evaluar_hipotesis (self : objeto) : resultado :=
  let rechaza_h0 :=
    if Rlt_dec (z_teorico self) (Rabs (z_prueba self)) then true
    else false in
  {| estadistico := z_prueba self;
     valor_critico := z_teorico self;
     r_p_valor := p_valor self;
     rechaza_h0 := rechaza_h0;
     tipo_prueba := "Prueba de Rachas";
     r_alpha := alpha self;
     r_B := B self;
     r_mu_B := mu_B self;
     r_sigma_B := sigma_B self;
     r_n1 := n1 self;
     r_n2 := n2 self;
     total_datos := Z.of_nat (List.length (numeros self)) |}.

(** [ejecutar] returns a dictionary and leaves the object as the steps
    made it. *)
Definition ejecutar (self : objeto) : salida * objeto :=
  let self := _convertir_a_simbolos self in
  let self := _contar_simbolos self in
  let self := _agrupar_simbolos self in
  let self := _contar_longitudes self in
  let self := _crear_tabla self in
  match _calcular_estadisticos self with
  | Sigue self => (Dict_resultado (_evaluar_hipotesis self), self)
  | Lanza e self =>
      (Dict_error {| mensaje := e;
                     e_tipo_prueba := "Prueba de Rachas";
                     e_alpha := alpha self |},
       self)
  end.

(** A test invocation: [RachasEncimaDebajo(datos, alpha).ejecutar()]. *)
Definition invocar (datos : list Q) (alpha : R) : salida * objeto :=
  ejecutar (__init__ datos alpha).

End Ejecutar.

End Prueba.

(** ** Notions used in the statements *)

(** The symbols of prueba_rachas_enc_deb.py: ['+'] when [x >= 0.5]. *)
Definition simbolos_ge (numeros : list Q) : list simbolo :=
  map (fun x => if Qgeb x medio then Mas else Menos) numeros.

(** The symbols of rachas_encima_debajo.py: ['+'] when [dato > 0.5]. *)
Definition simbolos_gt (datos : list Q) : list simbolo :=
  map (fun dato => if Qgtb dato medio then Mas else Menos) datos.

(** The object the constructor of rachas_encima_debajo.py builds from a
    non-empty sequence. *)
Definition objeto_rachas (datos : list Q) (alpha : R) : Rachas.objeto :=
  {| Rachas.datos := datos; Rachas.alpha := alpha;
     Rachas.n_total := Z.of_nat (List.length datos);
     Rachas.umbral := medio;
     Rachas.secuencia := simbolos_gt datos;
     Rachas.n1 := count Mas (simbolos_gt datos);
     Rachas.n2 := count Menos (simbolos_gt datos);
     Rachas.N :=
       (count Mas (simbolos_gt datos) + count Menos (simbolos_gt datos))%Z |}.

(** The z value as [_calcular_estadisticos] of prueba_rachas_enc_deb.py
    computes it, with its guard on [sigma_B]. *)
Definition z_guardado (B n1 n2 : Z) : R :=
  if Req_dec_T (sqrt (sigma2_formula n1 n2)) 0 then 0%R
  else Rabs ((IZR B - mu_formula n1 n2) / sqrt (sigma2_formula n1 n2)).

(** The result dictionary of prueba_rachas_enc_deb.py, as a function of the
    numbers and of alpha. *)
Definition resultado_prueba (norm : distribucion) (numeros : list Q)
           (alpha : R) : Prueba.resultado :=
  let sim := simbolos_ge numeros in
  let z := z_guardado (1 + cambios sim) (count Mas sim) (count Menos sim) in
  let vc := ppf norm (1 - alpha / 2)%R in
  {| Prueba.estadistico := z;
     Prueba.valor_critico := vc;
     Prueba.r_p_valor := (2 * (1 - cdf norm (Rabs z)))%R;
     Prueba.rechaza_h0 := if Rlt_dec vc (Rabs z) then true else false;
     Prueba.tipo_prueba := "Prueba de Rachas";
     Prueba.r_alpha := alpha;
     Prueba.r_B := (1 + cambios sim)%Z;
     Prueba.r_mu_B := mu_formula (count Mas sim) (count Menos sim);
     Prueba.r_sigma_B :=
       sqrt (sigma2_formula (count Mas sim) (count Menos sim));
     Prueba.r_n1 := count Mas sim;
     Prueba.r_n2 := count Menos sim;
     Prueba.total_datos := Z.of_nat (List.length numeros) |}.

(** The error dictionary of prueba_rachas_enc_deb.py for a division by
    zero. *)
Definition error_division (alpha : R) : Prueba.dict_error :=
  {| Prueba.mensaje := Prueba.ZeroDivisionError;
     Prueba.e_tipo_prueba := "Prueba de Rachas";
     Prueba.e_alpha := alpha |}.

(** The sequence 0.1, 0.9, 0.1, 0.9, ... of length [2 * pares]. *)
Definition alternante (pares : nat) : list Q :=
  flat_map (fun _ => [1 # 10; 9 # 10]) (seq 0 pares).

(** The object when [_calcular_estadisticos] starts. *)
Definition pasos_1_a_5 (self : Prueba.objeto) : Prueba.objeto :=
  Prueba._crear_tabla
    (Prueba._contar_longitudes
       (Prueba._agrupar_simbolos
          (Prueba._contar_simbolos (Prueba._convertir_a_simbolos self)))).

(** The group list of a loop state once its current run is closed. *)
Definition cerrar (st : Prueba.bucle) : list (simbolo * Z) :=
  Prueba.b_grupos st ++ [(Prueba.b_simbolo_actual st, Prueba.b_longitud st)].

(** Consecutive runs carry different symbols: each run is maximal. *)
Fixpoint sin_repetir (l : list simbolo) : Prop :=
  match l with
  | a :: (b :: _) as r => a <> b /\ sin_repetir r
  | _ => True
  end.

Definition maximales (grupos : list (simbolo * Z)) : Prop :=
  sin_repetir (map fst grupos).

(** ** prueba_rachas_enc_deb.py: the getters *)

(** [obtener_tabla_detallada], [obtener_grupos_detallados] and
    [obtener_simbolos] return the attribute as the last run left it. *)
Definition obtener_tabla_detallada (self : Prueba.objeto)
  : option (list (Z * Z)) := Prueba.tabla self.

Definition obtener_grupos_detallados (self : Prueba.objeto)
  : list (simbolo * Z) := Prueba.grupos self.

Definition obtener_simbolos (self : Prueba.objeto) : list simbolo :=
  Prueba.simbolos self.

(** Reading [d[k]] on the [defaultdict(int)]: 0 for a key that is absent. *)
Fixpoint valor (k : Z) (d : list (Z * Z)) : Z :=
  match d with
  | [] => 0%Z
  | (k', v) :: r => if (k' =? k)%Z then v else valor k r
  end.

(** The number of groups of length [k]. *)
Definition grupos_de_longitud (k : Z) (grupos : list (simbolo * Z)) : Z :=
  Z.of_nat (List.length (filter (fun g => (snd g =? k)%Z) grupos)).

(** The sum of the second column of a table, and the sum of the products
    of its two columns. *)
Definition suma_totales (t : list (Z * Z)) : Z :=
  fold_right (fun kv acc => snd kv + acc)%Z 0%Z t.

Definition suma_ponderada (t : list (Z * Z)) : Z :=
  fold_right (fun kv acc => fst kv * snd kv + acc)%Z 0%Z t.

(** Keys in strictly increasing order. *)
Fixpoint creciente (t : list (Z * Z)) : Prop :=
  match t with
  | a :: (b :: _) as r => (fst a < fst b)%Z /\ creciente r
  | _ => True
  end.

(** The number of values equal to the threshold 0.5. *)
Definition iguales_a_medio (datos : list Q) : Z :=
  Z.of_nat (List.length (filter (fun x => Qeq_bool x medio) datos)).

(** The object a method that can raise leaves behind, either way. *)
Definition estado_de (p : Prueba.paso) : Prueba.objeto :=
  match p with
  | Prueba.Sigue s => s
  | Prueba.Lanza _ s => s
  end.

(** ** main.py: the summary of a result *)

Module Main.

(** What [mostrar_resultado] inserts at the end of the text widget: the
    formatted values are kept as the numbers they format. *)
Inductive texto : Type :=
| Encabezado (nombre_prueba : string)   (* "\n" + nombre_prueba + "\n" *)
| Subrayado (n : nat)                   (* "-" * n + "\n" *)
| Linea_estadistico (x : R)             (* "Estadistico: {x:.6f}\n" *)
| Linea_valor_critico (x : R)           (* "Valor critico: {x:.6f}\n" *)
| Linea_p_valor (x : R)                 (* "P-valor: {x:.6f}\n" *)
| Linea_rechaza                         (* "RESULTADO: Se RECHAZA H0 ..." *)
| Linea_no_rechaza                      (* "RESULTADO: NO se rechaza H0 ..." *)
| Linea_vacia.                          (* "\n" *)

(** [KeyError('rechaza_h0')] *)
Inductive excepcion : Type :=
| KeyError_rechaza_h0.

(** The dictionary returned by [ejecutar] of rachas_encima_debajo.py, read
    by key: [d[clave]] for the keys that hold a float, [None] when the key
    is absent (so that [clave in d] is "is [Some]"). *)
Definition real_de (clave : string) (d : Rachas.salida) : option R :=
  match d with
  | Rachas.Dict_error _ => None
  | Rachas.Dict_resultado r =>
      if String.eqb clave "estadistico" then Some (Rachas.estadistico r)
      else if String.eqb clave "valor_critico" then
        Some (Rachas.valor_critico r)
      else if String.eqb clave "p_valor" then Some (Rachas.p_valor r)
      else if String.eqb clave "alpha" then Some (Rachas.r_alpha r)
      else if String.eqb clave "rachas_esperadas" then
        Some (Rachas.rachas_esperadas r)
      else if String.eqb clave "desviacion_estandar" then
        Some (Rachas.desviacion_estandar r)
      else None
  end.

(** [d['rechaza_h0']], [None] when the key is absent. *)
Definition rechaza_h0_de (d : Rachas.salida) : option bool :=
  match d with
  | Rachas.Dict_error _ => None
  | Rachas.Dict_resultado r => Some (Rachas.rechaza_h0 r)
  end.

(** [mostrar_resultado]: the text widget after the call, and the exception
    raised, if any. *)
Definition mostrar_resultado (text_resultados : list texto)
           (nombre_prueba : string) (resultado : Rachas.salida)
  : list texto * option excepcion :=
  let t := text_resultados ++ [Encabezado nombre_prueba] in
  let t := t ++ [Subrayado (String.length nombre_prueba)] in
  let t :=
    match real_de "estadistico" resultado with
    | Some x => t ++ [Linea_estadistico x]
    | None => t
    end in
  let t :=
    match real_de "valor_critico" resultado with
    | Some x => t ++ [Linea_valor_critico x]
    | None => t
    end in
  let t :=
    match real_de "p_valor" resultado with
    | Some x => t ++ [Linea_p_valor x]
    | None => t
    end in
  match rechaza_h0_de resultado with
  | None => (t, Some KeyError_rechaza_h0)
  | Some true => ((t ++ [Linea_rechaza]) ++ [Linea_vacia], None)
  | Some false => ((t ++ [Linea_no_rechaza]) ++ [Linea_vacia], None)
  end.

End Main.

(** * Properties *)

(** ** Symbols and changes of symbol *)

Lemma simbolo_eqb_eq (a b : simbolo) : simbolo_eqb a b = true <-> a = b.
Proof. destruct a, b; simpl; split; congruence. Qed.

Lemma simbolo_eqb_refl (a : simbolo) : simbolo_eqb a a = true.
Proof. now destruct a. Qed.

Lemma simbolo_eqb_sym (a b : simbolo) : simbolo_eqb a b = simbolo_eqb b a.
Proof. now destruct a, b. Qed.

Lemma cambios_nil : cambios [] = 0%Z.
Proof. reflexivity. Qed.

Lemma cambios_uno (a : simbolo) : cambios [a] = 0%Z.
Proof. reflexivity. Qed.

Lemma filter_map_S (f : nat -> bool) (l : list nat) :
  filter f (map S l) = map S (filter (fun i => f (S i)) l).
Proof.
  induction l as [|i l IH]; simpl; [reflexivity|].
  destruct (f (S i)); simpl; now rewrite IH.
Qed.

(** Dropping the first symbol drops the change at position 1, if any. *)
Lemma cambios_cons (a b : simbolo) (r : list simbolo) :
  cambios (a :: b :: r)
  = ((if simbolo_eqb b a then 0 else 1) + cambios (b :: r))%Z.
Proof.
  unfold cambios.
  replace (List.length (a :: b :: r) - 1)%nat with (S (List.length r))
    by (simpl; lia).
  replace (List.length (b :: r) - 1)%nat with (List.length r)
    by (simpl; lia).
  rewrite <- cons_seq, <- (seq_shift (List.length r) 1).
  cbn [filter]. rewrite filter_map_S.
  replace (nth 1 (a :: b :: r) Mas) with b by reflexivity.
  replace (nth (1 - 1) (a :: b :: r) Mas) with a by reflexivity.
  assert (E : filter
                (fun i => negb (simbolo_eqb (nth (S i) (a :: b :: r) Mas)
                                            (nth (S i - 1) (a :: b :: r) Mas)))
                (seq 1 (List.length r))
              = filter
                  (fun i => negb (simbolo_eqb (nth i (b :: r) Mas)
                                              (nth (i - 1) (b :: r) Mas)))
                  (seq 1 (List.length r))).
  { apply filter_ext_in. intros i Hi. apply in_seq in Hi.
    destruct i as [|j]; [lia|].
    replace (S (S j) - 1)%nat with (S j) by lia.
    replace (S j - 1)%nat with j by lia.
    reflexivity. }
  rewrite E.
  destruct (simbolo_eqb b a); cbn [negb List.length];
    rewrite ?length_map; lia.
Qed.

Lemma cambios_cotas (l : list simbolo) :
  (0 <= cambios l <= Z.of_nat (List.length l - 1))%Z.
Proof.
  unfold cambios. split; [lia|].
  apply inj_le.
  etransitivity; [apply filter_length_le|].
  now rewrite length_seq.
Qed.

(** A sequence of one repeated symbol has no change. *)
Lemma cambios_repeat (a : simbolo) (n : nat) : cambios (repeat a n) = 0%Z.
Proof.
  induction n as [|n IH]; [reflexivity|].
  destruct n as [|n]; [reflexivity|].
  change (repeat a (S (S n))) with (a :: a :: repeat a n).
  rewrite cambios_cons, simbolo_eqb_refl. exact IH.
Qed.

(** ** The two ways of counting runs *)

Lemma contar_bucle_cambios (r : list simbolo) :
  forall (previo : simbolo) (k : Z),
    Rachas.contar_bucle previo r k = (k + cambios (previo :: r))%Z.
Proof.
  induction r as [|s r IH]; intros previo k; simpl.
  - rewrite cambios_uno. lia.
  - rewrite IH, cambios_cons. destruct (simbolo_eqb s previo); lia.
Qed.

Lemma contar_rachas_cambios (s0 : simbolo) (r : list simbolo) :
  Rachas._contar_rachas (s0 :: r) = (1 + cambios (s0 :: r))%Z.
Proof. apply contar_bucle_cambios. Qed.

Lemma expandir_app (g h : list (simbolo * Z)) :
  expandir (g ++ h) = expandir g ++ expandir h.
Proof. apply flat_map_app. Qed.

Lemma suma_longitudes_app (g h : list (simbolo * Z)) :
  suma_longitudes (g ++ h) = (suma_longitudes g + suma_longitudes h)%Z.
Proof.
  unfold suma_longitudes.
  induction g as [|x g IH]; simpl; [reflexivity|]. rewrite IH. lia.
Qed.

Lemma agrupar_bucle_B (r : list simbolo) :
  forall st,
    Prueba.b_B (Prueba.agrupar_bucle r st)
    = (Prueba.b_B st + cambios (Prueba.b_simbolo_actual st :: r))%Z.
Proof.
  induction r as [|s r IH]; intros st; cbn [Prueba.agrupar_bucle].
  - rewrite cambios_uno. lia.
  - rewrite cambios_cons.
    destruct (simbolo_eqb s (Prueba.b_simbolo_actual st)) eqn:E.
    + rewrite IH. cbn [Prueba.b_B Prueba.b_simbolo_actual].
      apply simbolo_eqb_eq in E. subst s. lia.
    + rewrite IH. cbn [Prueba.b_B Prueba.b_simbolo_actual]. lia.
Qed.

Lemma agrupar_bucle_num_grupos (r : list simbolo) :
  forall st,
    Z.of_nat (List.length (Prueba.b_grupos (Prueba.agrupar_bucle r st)))
    = (Z.of_nat (List.length (Prueba.b_grupos st))
       + cambios (Prueba.b_simbolo_actual st :: r))%Z.
Proof.
  induction r as [|s r IH]; intros st; cbn [Prueba.agrupar_bucle].
  - rewrite cambios_uno. lia.
  - rewrite cambios_cons.
    destruct (simbolo_eqb s (Prueba.b_simbolo_actual st)) eqn:E.
    + rewrite IH. cbn [Prueba.b_grupos Prueba.b_simbolo_actual].
      apply simbolo_eqb_eq in E. subst s. lia.
    + rewrite IH. cbn [Prueba.b_grupos Prueba.b_simbolo_actual].
      rewrite length_app. cbn [List.length]. lia.
Qed.

Lemma agrupar_bucle_expandir (r : list simbolo) :
  forall st,
    (0 <= Prueba.b_longitud st)%Z ->
    expandir (cerrar (Prueba.agrupar_bucle r st)) = expandir (cerrar st) ++ r.
Proof.
  induction r as [|s r IH]; intros st Hl; simpl.
  - now rewrite app_nil_r.
  - destruct (simbolo_eqb s (Prueba.b_simbolo_actual st)) eqn:E.
    + rewrite IH by (simpl; lia).
      apply simbolo_eqb_eq in E. subst s.
      unfold cerrar. simpl. rewrite !expandir_app. simpl.
      rewrite !app_nil_r, Z2Nat.inj_add by lia.
      rewrite repeat_app. simpl. now rewrite <- !app_assoc.
    + rewrite IH by (simpl; lia).
      unfold cerrar at 1. simpl. rewrite expandir_app. simpl.
      fold (cerrar st). now rewrite <- app_assoc.
Qed.

Lemma agrupar_bucle_suma (r : list simbolo) :
  forall st,
    suma_longitudes (cerrar (Prueba.agrupar_bucle r st))
    = (suma_longitudes (cerrar st) + Z.of_nat (List.length r))%Z.
Proof.
  induction r as [|s r IH]; intros st.
  - simpl. lia.
  - cbn [Prueba.agrupar_bucle].
    destruct (simbolo_eqb s (Prueba.b_simbolo_actual st)).
    + rewrite IH. unfold cerrar. cbn [Prueba.b_grupos Prueba.b_longitud
        Prueba.b_simbolo_actual]. rewrite !suma_longitudes_app.
      cbn [suma_longitudes fold_right snd List.length]. lia.
    + rewrite IH. unfold cerrar. cbn [Prueba.b_grupos Prueba.b_longitud
        Prueba.b_simbolo_actual]. rewrite !suma_longitudes_app.
      cbn [suma_longitudes fold_right snd List.length]. lia.
Qed.

Lemma agrupar_bucle_positivas (r : list simbolo) :
  forall st,
    (1 <= Prueba.b_longitud st)%Z ->
    Forall (fun g => (1 <= snd g)%Z) (Prueba.b_grupos st) ->
    Forall (fun g => (1 <= snd g)%Z) (cerrar (Prueba.agrupar_bucle r st)).
Proof.
  induction r as [|s r IH]; intros st Hl Hg; simpl.
  - unfold cerrar. apply Forall_app. split; [assumption|].
    constructor; [assumption|constructor].
  - destruct (simbolo_eqb s (Prueba.b_simbolo_actual st)).
    + apply IH; simpl; [lia|assumption].
    + apply IH; simpl; [lia|].
      apply Forall_app. split; [assumption|].
      constructor; [assumption|constructor].
Qed.

Lemma sin_repetir_snoc (l : list simbolo) (a s : simbolo) :
  sin_repetir (l ++ [a]) -> a <> s -> sin_repetir ((l ++ [a]) ++ [s]).
Proof.
  induction l as [|x l IH]; intros H Has.
  - simpl. auto.
  - destruct l as [|y l].
    + simpl in *. intuition.
    + cbn [app sin_repetir] in *. destruct H as [Hxy H].
      split; [assumption|]. apply IH; assumption.
Qed.

Lemma agrupar_bucle_maximales (r : list simbolo) :
  forall st,
    maximales (cerrar st) ->
    maximales (cerrar (Prueba.agrupar_bucle r st)).
Proof.
  induction r as [|s r IH]; intros st H; cbn [Prueba.agrupar_bucle].
  - assumption.
  - destruct (simbolo_eqb s (Prueba.b_simbolo_actual st)) eqn:E; apply IH.
    + unfold maximales, cerrar in *.
      cbn [Prueba.b_grupos Prueba.b_longitud Prueba.b_simbolo_actual].
      rewrite map_app in *. exact H.
    + unfold maximales, cerrar in *.
      cbn [Prueba.b_grupos Prueba.b_longitud Prueba.b_simbolo_actual].
      rewrite !map_app in *. cbn [map fst] in *.
      apply sin_repetir_snoc; [assumption|].
      intros Heq. subst s. rewrite simbolo_eqb_refl in E. discriminate.
Qed.

(** What [_agrupar_simbolos] leaves in the object, for a non-empty symbol
    sequence. *)
Lemma agrupar_simbolos_cons (self : Prueba.objeto) (s0 : simbolo)
      (resto : list simbolo) :
  Prueba.simbolos self = s0 :: resto ->
  let st := Prueba.agrupar_bucle resto
              {| Prueba.b_grupos := []; Prueba.b_longitud := 1;
                 Prueba.b_simbolo_actual := s0; Prueba.b_B := 0 |} in
  Prueba.grupos (Prueba._agrupar_simbolos self) = cerrar st
  /\ Prueba.B (Prueba._agrupar_simbolos self) = (Prueba.b_B st + 1)%Z
  /\ Prueba.simbolos (Prueba._agrupar_simbolos self) = s0 :: resto.
Proof.
  intros H. unfold Prueba._agrupar_simbolos. rewrite H.
  cbn. auto.
Qed.

(** C4.  For every object whose symbol sequence is not empty,
    [_agrupar_simbolos] (the run grouper) leaves in [grupos] an ordered list
    of runs whose lengths sum to the length of the symbol sequence, and whose
    expansion in order, each symbol repeated by its run length, is the symbol
    sequence itself: the runs cover the sequence with no gap and no overlap.
    Every run has a length of at least 1 and consecutive runs carry
    different symbols. *)
Theorem C4_agrupar_simbolos_particion (self : Prueba.objeto) :
  Prueba.simbolos self <> [] ->
  let self' := Prueba._agrupar_simbolos self in
  suma_longitudes (Prueba.grupos self')
  = Z.of_nat (List.length (Prueba.simbolos self))
  /\ expandir (Prueba.grupos self') = Prueba.simbolos self
  /\ Forall (fun g => (1 <= snd g)%Z) (Prueba.grupos self')
  /\ maximales (Prueba.grupos self')
  /\ Prueba.simbolos self' = Prueba.simbolos self.
Proof.
  intros Hne. destruct (Prueba.simbolos self) as [|s0 resto] eqn:E;
    [congruence|].
  destruct (agrupar_simbolos_cons self E) as (Hg & _ & Hs).
  cbv zeta. rewrite Hg, Hs. repeat split.
  - rewrite agrupar_bucle_suma. cbn [cerrar]. unfold cerrar.
    cbn [Prueba.b_grupos Prueba.b_longitud Prueba.b_simbolo_actual app
         suma_longitudes fold_right snd List.length]. lia.
  - rewrite agrupar_bucle_expandir by (simpl; lia). reflexivity.
  - apply agrupar_bucle_positivas; simpl; [lia|constructor].
  - apply agrupar_bucle_maximales. exact I.
Qed.

(** The grouping of ['-', '-', '+', '-']: three runs of lengths 2, 1, 1. *)
Lemma C4_agrupar_simbolos_particion_witness :
  let self :=
    Prueba.set_simbolos [Menos; Menos; Mas; Menos] (Prueba.__init__ [] 0%R) in
  Prueba.grupos (Prueba._agrupar_simbolos self)
  = [(Menos, 2%Z); (Mas, 1%Z); (Menos, 1%Z)]
  /\ suma_longitudes (Prueba.grupos (Prueba._agrupar_simbolos self)) = 4%Z
  /\ expandir (Prueba.grupos (Prueba._agrupar_simbolos self))
     = [Menos; Menos; Mas; Menos].
Proof.
  split; [reflexivity|].
  pose proof (@C4_agrupar_simbolos_particion
                (Prueba.set_simbolos [Menos; Menos; Mas; Menos]
                                     (Prueba.__init__ [] 0%R))) as H.
  cbv zeta in H.
  destruct H as (H1 & H2 & _); [discriminate|].
  split; [exact H1 | exact H2].
Defined.

(** The run count of [_contar_rachas] on any non-empty symbol sequence. *)
Lemma contar_rachas_cotas (secuencia : list simbolo) :
  secuencia <> [] ->
  Rachas._contar_rachas secuencia = (1 + cambios secuencia)%Z
  /\ (1 <= Rachas._contar_rachas secuencia
      <= Z.of_nat (List.length secuencia))%Z.
Proof.
  intros Hne. destruct secuencia as [|s0 r]; [congruence|].
  rewrite contar_rachas_cambios.
  pose proof (cambios_cotas (s0 :: r)) as Hc. cbn [List.length] in *.
  split; [reflexivity|lia].
Qed.

(** The group count [B] of [_agrupar_simbolos] on any non-empty symbol
    sequence, whatever the object held before. *)
Lemma agrupar_simbolos_B (self : Prueba.objeto) :
  Prueba.simbolos self <> [] ->
  let self' := Prueba._agrupar_simbolos self in
  Prueba.B self' = (1 + cambios (Prueba.simbolos self))%Z
  /\ Prueba.B self' = Z.of_nat (List.length (Prueba.grupos self'))
  /\ (1 <= Prueba.B self' <= Z.of_nat (List.length (Prueba.simbolos self)))%Z.
Proof.
  intros Hne. destruct (Prueba.simbolos self) as [|s0 resto] eqn:E;
    [congruence|].
  destruct (agrupar_simbolos_cons self E) as (Hg & HB & _).
  cbv zeta. rewrite Hg, HB, agrupar_bucle_B.
  cbn [Prueba.b_B Prueba.b_simbolo_actual].
  pose proof (cambios_cotas (s0 :: resto)) as Hc. cbn [List.length] in *.
  repeat split; try lia.
  unfold cerrar. rewrite length_app, Nat2Z.inj_add, agrupar_bucle_num_grupos.
  cbn [Prueba.b_grupos Prueba.b_simbolo_actual List.length]. lia.
Qed.

Lemma init_rachas_no_vacio (datos : list Q) (alpha : R) :
  datos <> [] ->
  Rachas.__init__ datos alpha = inr (objeto_rachas datos alpha).
Proof.
  intros Hne. unfold Rachas.__init__.
  destruct datos as [|x l]; [congruence|].
  replace (Z.of_nat (List.length (x :: l)) =? 0)%Z with false; [reflexivity|].
  symmetry. apply Z.eqb_neq. cbn [List.length]. lia.
Qed.

(** C9.  For every non-empty input sequence of length n, the number of runs
    both classes compute lies between 1 and n and is 1 plus the number of
    positions whose symbol differs from the symbol before: the transition
    count [_contar_rachas] of rachas_encima_debajo.py on its symbol
    sequence, and the group count [B] of [_agrupar_simbolos] of
    prueba_rachas_enc_deb.py on its own, where [B] is also the number of
    groups listed. *)
Theorem C9_numero_de_rachas (datos : list Q) (alpha : R) :
  datos <> [] ->
  let n := Z.of_nat (List.length datos) in
  (exists self,
      Rachas.__init__ datos alpha = inr self
      /\ List.length (Rachas.secuencia self) = List.length datos
      /\ (1 <= Rachas._contar_rachas (Rachas.secuencia self) <= n)%Z
      /\ Rachas._contar_rachas (Rachas.secuencia self)
         = (1 + cambios (Rachas.secuencia self))%Z)
  /\ (let self :=
        Prueba._agrupar_simbolos
          (Prueba._contar_simbolos
             (Prueba._convertir_a_simbolos (Prueba.__init__ datos alpha))) in
      List.length (Prueba.simbolos self) = List.length datos
      /\ (1 <= Prueba.B self <= n)%Z
      /\ Prueba.B self = (1 + cambios (Prueba.simbolos self))%Z
      /\ Prueba.B self = Z.of_nat (List.length (Prueba.grupos self))).
Proof.
  intros Hne. cbv zeta. split.
  - eexists. split; [apply init_rachas_no_vacio; assumption|].
    cbn [Rachas.secuencia objeto_rachas].
    set (sec := simbolos_gt datos).
    assert (Hlen : List.length sec = List.length datos)
      by (unfold sec; apply length_map).
    assert (Hsec : sec <> [])
      by (intros H; rewrite H in Hlen; destruct datos; simpl in *; congruence).
    destruct (contar_rachas_cotas Hsec) as [He Hb].
    rewrite Hlen in Hb. auto.
  - set (s := Prueba._contar_simbolos
                (Prueba._convertir_a_simbolos (Prueba.__init__ datos alpha))).
    assert (Hs : Prueba.simbolos s
                 = map (fun x => if Qgeb x medio then Mas else Menos) datos)
      by reflexivity.
    assert (Hlen : List.length (Prueba.simbolos s) = List.length datos)
      by (rewrite Hs; apply length_map).
    assert (Hsec : Prueba.simbolos s <> [])
      by (intros H; rewrite H in Hlen; destruct datos; simpl in *; congruence).
    pose proof (agrupar_simbolos_B s Hsec) as HB. cbv zeta in HB.
    destruct HB as (H1 & H2 & H3).
    assert (Hsim : Prueba.simbolos (Prueba._agrupar_simbolos s)
                   = Prueba.simbolos s).
    { destruct (Prueba.simbolos s) as [|s0 r] eqn:E; [congruence|].
      destruct (agrupar_simbolos_cons s E) as (_ & _ & H). exact H. }
    rewrite Hsim, <- Hlen. auto.
Qed.

(** The runs of 0.1, 0.1, 0.9, 0.7, 0.2: three in both classes. *)
Lemma C9_numero_de_rachas_witness :
  exists self,
    Rachas.__init__ [1#10; 1#10; 9#10; 7#10; 2#10] (5/100)%R = inr self
    /\ Rachas._contar_rachas (Rachas.secuencia self) = 3%Z
    /\ Prueba.B
         (Prueba._agrupar_simbolos
            (Prueba._contar_simbolos
               (Prueba._convertir_a_simbolos
                  (Prueba.__init__ [1#10; 1#10; 9#10; 7#10; 2#10] (5/100)%R))))
       = 3%Z.
Proof.
  pose proof (@C9_numero_de_rachas [1#10; 1#10; 9#10; 7#10; 2#10] (5/100)%R)
    as H.
  cbv zeta in H.
  destruct H as [(self & Hi & _ & _ & HR) (_ & _ & HB & _)]; [discriminate|].
  exists self. split; [exact Hi|]. split.
  - rewrite HR. rewrite init_rachas_no_vacio in Hi by discriminate.
    injection Hi as Hi. subst self. reflexivity.
  - rewrite HB. reflexivity.
Defined.

(** ** Arithmetic of the expected value and the variance *)

Section Aritmetica.

Variables n1 n2 : Z.

Lemma numerador_pos :
  (1 <= n1 -> 1 <= n2 -> 3 <= n1 + n2 ->
   0 < 2 * n1 * n2 * (2 * n1 * n2 - n1 - n2))%Z.
Proof.
  intros H1 H2 H3.
  assert (Hp : (0 < n1 * n2)%Z) by nia.
  assert (Ha : (0 <= n1 * (n2 - 1))%Z) by nia.
  assert (Hb : (0 <= n2 * (n1 - 1))%Z) by nia.
  assert (Hc : (0 < n1 * (n2 - 1) + n2 * (n1 - 1))%Z).
  { destruct (Z.eq_dec n1 1) as [->|Hn]; [lia|].
    assert (1 * 1 <= n2 * (n1 - 1))%Z by (apply Z.mul_le_mono_nonneg; lia).
    lia. }
  replace (2 * n1 * n2 - n1 - n2)%Z
    with (n1 * (n2 - 1) + n2 * (n1 - 1))%Z by ring.
  apply Z.mul_pos_pos; lia.
Qed.

Lemma denominador_pos :
  (2 <= n1 + n2 -> 0 < (n1 + n2) ^ 2 * (n1 + n2 - 1))%Z.
Proof.
  intros H. rewrite Z.pow_2_r.
  apply Z.mul_pos_pos; [apply Z.mul_pos_pos|]; lia.
Qed.

Lemma mu_IZR :
  (IZR (2 * n1 * n2) / IZR (n1 + n2) + 1)%R = mu_formula n1 n2.
Proof.
  unfold mu_formula. now rewrite !mult_IZR, plus_IZR.
Qed.

Lemma sigma2_IZR :
  (IZR (2 * n1 * n2 * (2 * n1 * n2 - n1 - n2))
   / IZR ((n1 + n2) ^ 2 * (n1 + n2 - 1)))%R
  = sigma2_formula n1 n2.
Proof.
  unfold sigma2_formula.
  rewrite Z.pow_2_r, !mult_IZR, !minus_IZR, !mult_IZR, !plus_IZR.
  simpl pow. now rewrite Rmult_1_r.
Qed.

Lemma sigma2_pos :
  (1 <= n1)%Z -> (1 <= n2)%Z -> (3 <= n1 + n2)%Z ->
  (0 < sigma2_formula n1 n2)%R.
Proof.
  intros H1 H2 H3. rewrite <- sigma2_IZR.
  apply Rdiv_lt_0_compat; apply IZR_lt.
  - now apply numerador_pos.
  - apply denominador_pos. lia.
Qed.

End Aritmetica.

(** ** rachas_encima_debajo.py: what [ejecutar] returns *)

Section EjecutarRachas.

Variable norm : distribucion.
Variable self : Rachas.objeto.

Hypothesis HN : Rachas.N self = (Rachas.n1 self + Rachas.n2 self)%Z.

(** With both symbols present and at least three values, none of the
    three error returns is taken. *)
Lemma ejecutar_rachas_resultado :
  (1 <= Rachas.n1 self)%Z -> (1 <= Rachas.n2 self)%Z ->
  (3 <= Rachas.n1 self + Rachas.n2 self)%Z ->
  let Z := z_formula (Rachas._contar_rachas (Rachas.secuencia self))
                     (Rachas.n1 self) (Rachas.n2 self) in
  let vc := ppf norm (1 - Rachas.alpha self / 2)%R in
  Rachas.ejecutar norm self
  = Rachas.Dict_resultado
      {| Rachas.estadistico := Z;
         Rachas.valor_critico := vc;
         Rachas.p_valor := (2 * (1 - cdf norm (Rabs Z)))%R;
         Rachas.rechaza_h0 := if Rlt_dec vc Z then true else false;
         Rachas.tipo_prueba := "Rachas Encima/Debajo (Umbral 0.5)";
         Rachas.r_alpha := Rachas.alpha self;
         Rachas.r_n_total := Rachas.n_total self;
         Rachas.r_umbral := Rachas.umbral self;
         Rachas.r_n1 := Rachas.n1 self;
         Rachas.r_n2 := Rachas.n2 self;
         Rachas.rachas_observadas :=
           Rachas._contar_rachas (Rachas.secuencia self);
         Rachas.rachas_esperadas :=
           mu_formula (Rachas.n1 self) (Rachas.n2 self);
         Rachas.desviacion_estandar :=
           sqrt (sigma2_formula (Rachas.n1 self) (Rachas.n2 self));
         Rachas.r_secuencia := Rachas.vista_previa (Rachas.secuencia self) |}.
Proof.
  intros H1 H2 H3. cbv zeta. unfold Rachas.ejecutar.
  assert (E1 : ((Rachas.N self =? 0) || (Rachas.n1 self =? 0)
                || (Rachas.n2 self =? 0))%Z = false).
  { rewrite !orb_false_iff, !Z.eqb_neq. lia. }
  rewrite E1.
  assert (E2 : ((Rachas.n1 self + Rachas.n2 self) ^ 2
                * (Rachas.n1 self + Rachas.n2 self - 1) =? 0)%Z = false).
  { apply Z.eqb_neq.
    pose proof (@denominador_pos (Rachas.n1 self) (Rachas.n2 self)). lia. }
  rewrite E2, mu_IZR, sigma2_IZR.
  destruct (Req_dec_T _ 0%R) as [Hs|Hs].
  - pose proof (sqrt_lt_R0 _ (sigma2_pos H1 H2 H3)). lra.
  - reflexivity.
Qed.

(** With no value above the threshold, or none that is not, the first
    error return is taken. *)
Lemma ejecutar_rachas_sin_rachas :
  (Rachas.n1 self = 0 \/ Rachas.n2 self = 0)%Z ->
  Rachas.ejecutar norm self = Rachas.Dict_error Rachas.Error_sin_rachas.
Proof.
  intros H. unfold Rachas.ejecutar.
  replace ((Rachas.N self =? 0) || (Rachas.n1 self =? 0)
           || (Rachas.n2 self =? 0))%Z with true; [reflexivity|].
  symmetry. rewrite !orb_true_iff, !Z.eqb_eq. tauto.
Qed.

(** With exactly one value on each side the variance is 0, and the third
    error return is taken. *)
Lemma ejecutar_rachas_desviacion_cero :
  Rachas.n1 self = 1%Z -> Rachas.n2 self = 1%Z ->
  Rachas.ejecutar norm self = Rachas.Dict_error Rachas.Error_desviacion_cero.
Proof.
  intros H1 H2. unfold Rachas.ejecutar. rewrite HN, H1, H2.
  cbn [Z.add Z.eqb Pos.add orb Pos.succ].
  change ((1 + 1) ^ 2 * (1 + 1 - 1) =? 0)%Z with false.
  change (2 * 1 * 1 * (2 * 1 * 1 - 1 - 1))%Z with 0%Z.
  destruct (Req_dec_T _ 0%R) as [Hs|Hs]; [reflexivity|].
  exfalso. apply Hs. unfold Rdiv. rewrite Rmult_0_l. apply sqrt_0.
Qed.

End EjecutarRachas.

(** ** prueba_rachas_enc_deb.py: what the steps leave in the object *)

Lemma count_no_negativo (c : simbolo) (l : list simbolo) : (0 <= count c l)%Z.
Proof.
  induction l as [|s l IH]; simpl; [lia|].
  destruct (simbolo_eqb s c); lia.
Qed.

Lemma count_total (l : list simbolo) :
  (count Mas l + count Menos l)%Z = Z.of_nat (List.length l).
Proof.
  induction l as [|s l IH]; [reflexivity|].
  cbn [count List.length]. rewrite Nat2Z.inj_succ.
  destruct s; cbn [simbolo_eqb]; lia.
Qed.

Lemma sigma2_no_negativa (n1 n2 : Z) :
  (0 <= n1)%Z -> (0 <= n2)%Z -> (2 <= n1 + n2)%Z ->
  (0 <= sigma2_formula n1 n2)%R.
Proof.
  intros H1 H2 H3. rewrite <- sigma2_IZR.
  pose proof (@denominador_pos n1 n2 H3) as Hd.
  apply Rmult_le_pos.
  - apply IZR_le.
    destruct (Z.eq_dec n1 0) as [->|Hn1]; [lia|].
    destruct (Z.eq_dec n2 0) as [->|Hn2]; [lia|].
    destruct (Z.eq_dec (n1 + n2) 2) as [E|E].
    + assert (n1 = 1%Z) by lia. assert (n2 = 1%Z) by lia. subst. lia.
    + pose proof (@numerador_pos n1 n2). lia.
  - left. apply Rinv_0_lt_compat. now apply IZR_lt.
Qed.

(** With one of the counts at 0, or both at 1, the variance is 0. *)
Lemma sigma2_cero (n1 n2 : Z) :
  (n1 = 0 \/ n2 = 0 \/ (n1 = 1 /\ n2 = 1))%Z -> sigma2_formula n1 n2 = 0%R.
Proof.
  intros H. unfold sigma2_formula.
  destruct H as [-> | [-> | [-> ->]]]; unfold Rdiv;
    match goal with
    | |- (?a * _)%R = _ => replace a with 0%R by ring
    end; apply Rmult_0_l.
Qed.

Section EjecutarPrueba.

Variable norm : distribucion.

Lemma ejecutar_prueba_pasos (self : Prueba.objeto) :
  Prueba.ejecutar norm self
  = match Prueba._calcular_estadisticos norm (pasos_1_a_5 self) with
    | Prueba.Sigue s => (Prueba.Dict_resultado (Prueba._evaluar_hipotesis s), s)
    | Prueba.Lanza e s =>
        (Prueba.Dict_error
           {| Prueba.mensaje := e;
              Prueba.e_tipo_prueba := "Prueba de Rachas";
              Prueba.e_alpha := Prueba.alpha s |}, s)
    end.
Proof. reflexivity. Qed.

(** The attributes steps 1 to 5 do not assign. *)
Lemma pasos_conservan (self : Prueba.objeto) :
  let s := pasos_1_a_5 self in
  Prueba.datos s = Prueba.datos self
  /\ Prueba.numeros s = Prueba.numeros self
  /\ Prueba.alpha s = Prueba.alpha self
  /\ Prueba.mu_B s = Prueba.mu_B self
  /\ Prueba.sigma2_B s = Prueba.sigma2_B self
  /\ Prueba.sigma_B s = Prueba.sigma_B self
  /\ Prueba.z_prueba s = Prueba.z_prueba self
  /\ Prueba.z_teorico s = Prueba.z_teorico self
  /\ Prueba.p_valor s = Prueba.p_valor self.
Proof.
  cbv zeta. unfold pasos_1_a_5, Prueba._crear_tabla,
    Prueba._contar_longitudes, Prueba._agrupar_simbolos.
  destruct (Prueba.simbolos _); cbn; repeat split.
Qed.

(** The attributes steps 1 to 5 assign from the numbers alone. *)
Lemma pasos_asignan (self : Prueba.objeto) :
  let s := pasos_1_a_5 self in
  let sim := simbolos_ge (Prueba.numeros self) in
  Prueba.simbolos s = sim
  /\ Prueba.n1 s = count Mas sim
  /\ Prueba.n2 s = count Menos sim
  /\ (Prueba.numeros self <> [] -> Prueba.B s = (1 + cambios sim)%Z).
Proof.
  cbv zeta.
  set (s2 := Prueba._contar_simbolos (Prueba._convertir_a_simbolos self)).
  assert (Hs2 : Prueba.simbolos s2 = simbolos_ge (Prueba.numeros self))
    by reflexivity.
  assert (Hn1 : Prueba.n1 s2 = count Mas (simbolos_ge (Prueba.numeros self)))
    by reflexivity.
  assert (Hn2 : Prueba.n2 s2
                = count Menos (simbolos_ge (Prueba.numeros self)))
    by reflexivity.
  assert (Hk : Prueba.simbolos (pasos_1_a_5 self) = Prueba.simbolos s2
               /\ Prueba.n1 (pasos_1_a_5 self) = Prueba.n1 s2
               /\ Prueba.n2 (pasos_1_a_5 self) = Prueba.n2 s2
               /\ Prueba.B (pasos_1_a_5 self)
                  = Prueba.B (Prueba._agrupar_simbolos s2)).
  { unfold pasos_1_a_5. fold s2.
    unfold Prueba._crear_tabla, Prueba._contar_longitudes,
      Prueba._agrupar_simbolos.
    clearbody s2. clear Hs2 Hn1 Hn2.
    destruct (Prueba.simbolos s2) eqn:E; cbn; rewrite ?E; repeat split. }
  destruct Hk as (K1 & K2 & K3 & K4).
  rewrite K1, K2, K3, K4, Hs2, Hn1, Hn2. repeat split.
  intros Hne.
  assert (Hsec : Prueba.simbolos s2 <> []).
  { rewrite Hs2. unfold simbolos_ge.
    destruct (Prueba.numeros self); [congruence|discriminate]. }
  pose proof (agrupar_simbolos_B s2 Hsec) as HB. cbv zeta in HB.
  rewrite Hs2 in HB. tauto.
Qed.

End EjecutarPrueba.


(** ** prueba_rachas_enc_deb.py: what [_calcular_estadisticos] assigns *)

Ltac proyectar :=
  cbn [Prueba.datos Prueba.alpha Prueba.numeros Prueba.simbolos Prueba.n1
       Prueba.n2 Prueba.grupos Prueba.B Prueba.conteo_longitudes Prueba.tabla
       Prueba.mu_B Prueba.sigma2_B Prueba.sigma_B Prueba.z_prueba
       Prueba.z_teorico Prueba.p_valor
       Prueba.set_mu_B Prueba.set_sigma2_B Prueba.set_sigma_B
       Prueba.set_z_prueba Prueba.set_z_teorico Prueba.set_p_valor].

Section CalcularPrueba.

Variable norm : distribucion.
Variable s : Prueba.objeto.

(** With at least two symbols no exception is raised, and the six
    statistics are assigned from [n1], [n2], [B] and [alpha]. *)
Lemma calcular_sigue :
  (0 <= Prueba.n1 s)%Z -> (0 <= Prueba.n2 s)%Z ->
  (2 <= Prueba.n1 s + Prueba.n2 s)%Z ->
  exists s',
    Prueba._calcular_estadisticos norm s = Prueba.Sigue s'
    /\ Prueba.mu_B s' = mu_formula (Prueba.n1 s) (Prueba.n2 s)
    /\ Prueba.sigma2_B s' = sigma2_formula (Prueba.n1 s) (Prueba.n2 s)
    /\ Prueba.sigma_B s' = sqrt (sigma2_formula (Prueba.n1 s) (Prueba.n2 s))
    /\ Prueba.z_prueba s'
       = z_guardado (Prueba.B s) (Prueba.n1 s) (Prueba.n2 s)
    /\ Prueba.z_teorico s' = ppf norm (1 - Prueba.alpha s / 2)%R
    /\ Prueba.p_valor s'
       = (2 * (1 - cdf norm (Rabs (Prueba.z_prueba s'))))%R
    /\ Prueba.n1 s' = Prueba.n1 s /\ Prueba.n2 s' = Prueba.n2 s
    /\ Prueba.B s' = Prueba.B s /\ Prueba.alpha s' = Prueba.alpha s
    /\ Prueba.numeros s' = Prueba.numeros s
    /\ Prueba.datos s' = Prueba.datos s
    /\ Prueba.simbolos s' = Prueba.simbolos s
    /\ Prueba.grupos s' = Prueba.grupos s.
Proof.
  intros H1 H2 H3. unfold Prueba._calcular_estadisticos.
  assert (E1 : (Prueba.n1 s + Prueba.n2 s =? 0)%Z = false)
    by (apply Z.eqb_neq; lia).
  rewrite E1. proyectar.
  assert (E2 : ((Prueba.n1 s + Prueba.n2 s) ^ 2
                * (Prueba.n1 s + Prueba.n2 s - 1) =? 0)%Z = false).
  { apply Z.eqb_neq.
    pose proof (@denominador_pos (Prueba.n1 s) (Prueba.n2 s) H3). lia. }
  rewrite E2. proyectar. rewrite mu_IZR, sigma2_IZR.
  destruct (Rlt_dec _ 0) as [Hneg|_].
  - pose proof (sigma2_no_negativa H1 H2 H3). lra.
  - eexists. split; [reflexivity|]. proyectar.
    unfold z_guardado. repeat split.
Qed.

(** With one of the counts at 0 the division of the expected value, or the
    one of the variance, raises. *)
Lemma calcular_lanza_vacio :
  (Prueba.n1 s + Prueba.n2 s)%Z = 0%Z ->
  Prueba._calcular_estadisticos norm s = Prueba.Lanza Prueba.ZeroDivisionError s.
Proof.
  intros H. unfold Prueba._calcular_estadisticos. now rewrite H.
Qed.

End CalcularPrueba.

(** Where the variance is positive the guarded z value is the z of the
    formula. *)
Lemma z_guardado_formula (B n1 n2 : Z) :
  (1 <= n1)%Z -> (1 <= n2)%Z -> (3 <= n1 + n2)%Z ->
  z_guardado B n1 n2 = z_formula B n1 n2.
Proof.
  intros H1 H2 H3. unfold z_guardado, z_formula.
  pose proof (sqrt_lt_R0 _ (sigma2_pos H1 H2 H3)) as Hs.
  destruct (Req_dec_T _ 0%R) as [E|_]; [lra|].
  unfold Rdiv. rewrite Rabs_mult. f_equal.
  apply Rabs_pos_eq. left. now apply Rinv_0_lt_compat.
Qed.

(** Where the variance is 0 the guarded z value is 0. *)
Lemma z_guardado_cero (B n1 n2 : Z) :
  sqrt (sigma2_formula n1 n2) = 0%R -> z_guardado B n1 n2 = 0%R.
Proof.
  intros H. unfold z_guardado.
  destruct (Req_dec_T _ 0%R) as [_|E]; [reflexivity|contradiction].
Qed.

Lemma z_formula_no_negativo (B n1 n2 : Z) : (0 <= z_formula B n1 n2)%R.
Proof.
  unfold z_formula, Rdiv. apply Rmult_le_pos; [apply Rabs_pos|].
  destruct (Req_dec_T (sqrt (sigma2_formula n1 n2)) 0%R) as [E|E].
  - rewrite E, Rinv_0. lra.
  - left. apply Rinv_0_lt_compat.
    pose proof (sqrt_pos (sigma2_formula n1 n2)). lra.
Qed.

(** ** prueba_rachas_enc_deb.py: what [ejecutar] returns *)

Section ResultadoPrueba.

Variable norm : distribucion.
Variable self : Prueba.objeto.

Lemma numeros_longitud_ge :
  List.length (simbolos_ge (Prueba.numeros self))
  = List.length (Prueba.numeros self).
Proof. apply length_map. Qed.

(** With at least two numbers [ejecutar] returns a result dictionary, the
    same whatever the object held in its other attributes. *)
Lemma ejecutar_prueba_resultado :
  (2 <= List.length (Prueba.numeros self))%nat ->
  let sim := simbolos_ge (Prueba.numeros self) in
  exists s',
    Prueba.ejecutar norm self
    = (Prueba.Dict_resultado
         (resultado_prueba norm (Prueba.numeros self) (Prueba.alpha self)),
       s')
    /\ Prueba.sigma2_B s'
       = sigma2_formula (count Mas sim) (count Menos sim)
    /\ Prueba.sigma_B s'
       = sqrt (sigma2_formula (count Mas sim) (count Menos sim))
    /\ Prueba.numeros s' = Prueba.numeros self
    /\ Prueba.datos s' = Prueba.datos self
    /\ Prueba.alpha s' = Prueba.alpha self.
Proof.
  intros Hlen. cbv zeta. rewrite ejecutar_prueba_pasos.
  pose proof (pasos_asignan self) as Ha. cbv zeta in Ha.
  destruct Ha as (Hsim & Hn1 & Hn2 & HB).
  pose proof (pasos_conservan self) as Hc. cbv zeta in Hc.
  destruct Hc as (Hdat & Hnum & Halpha & _).
  assert (Hne : Prueba.numeros self <> [])
    by (destruct (Prueba.numeros self); simpl in Hlen; [lia|discriminate]).
  specialize (HB Hne).
  pose proof (count_total (simbolos_ge (Prueba.numeros self))) as Ht.
  rewrite numeros_longitud_ge in Ht.
  destruct (@calcular_sigue norm (pasos_1_a_5 self))
    as (s' & Hcalc & Hmu & Hs2 & Hs & Hz & Hvc & Hp & K1 & K2 & KB & Kal
        & Knum & Kdat & _).
  - rewrite Hn1. apply count_no_negativo.
  - rewrite Hn2. apply count_no_negativo.
  - rewrite Hn1, Hn2. lia.
  - rewrite Hcalc. exists s'.
    rewrite Hn1, Hn2 in *. rewrite HB in *.
    repeat split; try congruence.
    f_equal. f_equal. unfold Prueba._evaluar_hipotesis, resultado_prueba.
    rewrite Hp, Hz, Hvc, Hmu, Hs, K1, K2, KB, Kal, Knum, Halpha, Hnum.
    reflexivity.
Qed.

(** With one number or none a division by zero is raised and caught. *)
Lemma ejecutar_prueba_error :
  (List.length (Prueba.numeros self) <= 1)%nat ->
  exists s',
    Prueba.ejecutar norm self
    = (Prueba.Dict_error (error_division (Prueba.alpha self)), s')
    /\ Prueba.numeros s' = Prueba.numeros self
    /\ Prueba.datos s' = Prueba.datos self
    /\ Prueba.alpha s' = Prueba.alpha self.
Proof.
  intros Hlen. rewrite ejecutar_prueba_pasos.
  pose proof (pasos_asignan self) as Ha. cbv zeta in Ha.
  destruct Ha as (_ & Hn1 & Hn2 & _).
  pose proof (pasos_conservan self) as Hc. cbv zeta in Hc.
  destruct Hc as (Hdat & Hnum & Halpha & _).
  pose proof (count_total (simbolos_ge (Prueba.numeros self))) as Ht.
  rewrite numeros_longitud_ge, <- Hn1, <- Hn2 in Ht.
  pose proof (count_no_negativo Mas (simbolos_ge (Prueba.numeros self)))
    as P1.
  pose proof (count_no_negativo Menos (simbolos_ge (Prueba.numeros self)))
    as P2.
  rewrite <- Hn1 in P1. rewrite <- Hn2 in P2.
  clear Hn1 Hn2.
  generalize dependent (pasos_1_a_5 self). intros p Hdat Hnum Halpha Ht P1 P2.
  unfold Prueba._calcular_estadisticos.
  destruct (Prueba.n1 p + Prueba.n2 p =? 0)%Z eqn:E1.
  - exists p. unfold error_division. rewrite Halpha. auto.
  - proyectar. apply Z.eqb_neq in E1.
    assert (E : (Prueba.n1 p + Prueba.n2 p)%Z = 1%Z) by lia.
    rewrite E. change (1 ^ 2 * (1 - 1) =? 0)%Z with true. cbv iota.
    eexists.
    split; [unfold error_division; proyectar; rewrite Halpha; reflexivity|].
    proyectar. auto.
Qed.

End ResultadoPrueba.

(** ** Test invocations *)

Lemma rlt_bool (a b : R) :
  (if Rlt_dec a b then true else false) = true <-> (a < b)%R.
Proof. destruct (Rlt_dec a b); split; intros; (assumption || congruence || reflexivity). Qed.

Lemma invocar_rachas_no_vacio (norm : distribucion) (datos : list Q)
      (alpha : R) :
  datos <> [] ->
  Rachas.invocar norm datos alpha
  = inr (Rachas.ejecutar norm (objeto_rachas datos alpha)).
Proof.
  intros Hne. unfold Rachas.invocar.
  now rewrite init_rachas_no_vacio.
Qed.

Lemma simbolos_gt_no_vacio (datos : list Q) :
  (1 <= count Mas (simbolos_gt datos) + count Menos (simbolos_gt datos))%Z ->
  datos <> [].
Proof. intros H E. subst datos. simpl in H. lia. Qed.

Lemma simbolos_ge_longitud (datos : list Q) (k : Z) :
  (k <= count Mas (simbolos_ge datos) + count Menos (simbolos_ge datos))%Z ->
  (k <= Z.of_nat (List.length datos))%Z.
Proof.
  rewrite count_total. unfold simbolos_ge. now rewrite length_map.
Qed.

(** The result of rachas_encima_debajo.py on a sequence with both symbols
    and at least three values. *)
Lemma invocar_rachas_resultado (norm : distribucion) (datos : list Q)
      (alpha : R) :
  let sec := simbolos_gt datos in
  let n1 := count Mas sec in
  let n2 := count Menos sec in
  let B := (1 + cambios sec)%Z in
  (1 <= n1)%Z -> (1 <= n2)%Z -> (3 <= n1 + n2)%Z ->
  exists r,
    Rachas.invocar norm datos alpha = inr (Rachas.Dict_resultado r)
    /\ Rachas.r_n1 r = n1 /\ Rachas.r_n2 r = n2
    /\ Rachas.rachas_observadas r = B
    /\ Rachas.rachas_esperadas r = mu_formula n1 n2
    /\ Rachas.desviacion_estandar r = sqrt (sigma2_formula n1 n2)
    /\ Rachas.estadistico r = z_formula B n1 n2
    /\ Rachas.valor_critico r = ppf norm (1 - alpha / 2)%R
    /\ Rachas.p_valor r
       = (2 * (1 - cdf norm (Rabs (Rachas.estadistico r))))%R
    /\ Rachas.rechaza_h0 r
       = (if Rlt_dec (Rachas.valor_critico r) (Rachas.estadistico r)
          then true else false)
    /\ Rachas.r_alpha r = alpha.
Proof.
  cbv zeta. intros H1 H2 H3.
  assert (Hne : datos <> []) by (apply simbolos_gt_no_vacio; lia).
  rewrite (invocar_rachas_no_vacio norm alpha Hne).
  pose proof (@ejecutar_rachas_resultado norm (objeto_rachas datos alpha)
                eq_refl H1 H2 H3) as He.
  cbv zeta in He. cbn [objeto_rachas Rachas.n1 Rachas.n2 Rachas.secuencia
                       Rachas.alpha] in He.
  rewrite He. eexists. split; [reflexivity|].
  cbn [Rachas.r_n1 Rachas.r_n2 Rachas.rachas_observadas
       Rachas.rachas_esperadas Rachas.desviacion_estandar Rachas.estadistico
       Rachas.valor_critico Rachas.p_valor Rachas.rechaza_h0 Rachas.r_alpha].
  assert (Hsec : simbolos_gt datos <> []).
  { unfold simbolos_gt. destruct datos; [congruence|discriminate]. }
  destruct (contar_rachas_cotas Hsec) as [HR _]. rewrite HR.
  repeat split.
Qed.

(** The result of prueba_rachas_enc_deb.py on a sequence with both symbols
    and at least three values. *)
Lemma invocar_prueba_resultado (norm : distribucion) (datos : list Q)
      (alpha : R) :
  let sec := simbolos_ge datos in
  let n1 := count Mas sec in
  let n2 := count Menos sec in
  let B := (1 + cambios sec)%Z in
  (1 <= n1)%Z -> (1 <= n2)%Z -> (3 <= n1 + n2)%Z ->
  exists r s,
    Prueba.invocar norm datos alpha = (Prueba.Dict_resultado r, s)
    /\ Prueba.r_n1 r = n1 /\ Prueba.r_n2 r = n2
    /\ Prueba.r_B r = B
    /\ Prueba.r_mu_B r = mu_formula n1 n2
    /\ Prueba.sigma2_B s = sigma2_formula n1 n2
    /\ Prueba.r_sigma_B r = sqrt (sigma2_formula n1 n2)
    /\ Prueba.estadistico r = z_formula B n1 n2
    /\ Prueba.valor_critico r = ppf norm (1 - alpha / 2)%R
    /\ Prueba.r_p_valor r
       = (2 * (1 - cdf norm (Rabs (Prueba.estadistico r))))%R
    /\ Prueba.rechaza_h0 r
       = (if Rlt_dec (Prueba.valor_critico r) (Prueba.estadistico r)
          then true else false)
    /\ Prueba.r_alpha r = alpha.
Proof.
  cbv zeta. intros H1 H2 H3.
  assert (Hlen : (2 <= List.length datos)%nat).
  { apply Nat2Z.inj_le. apply simbolos_ge_longitud. lia. }
  destruct (@ejecutar_prueba_resultado norm (Prueba.__init__ datos alpha) Hlen)
    as (s' & He & Hs2 & _).
  cbn [Prueba.__init__ Prueba.numeros Prueba.alpha] in He, Hs2.
  exists (resultado_prueba norm datos alpha), s'.
  split; [exact He|].
  unfold resultado_prueba.
  cbn [Prueba.r_n1 Prueba.r_n2 Prueba.r_B Prueba.r_mu_B Prueba.r_sigma_B
       Prueba.estadistico Prueba.valor_critico Prueba.r_p_valor
       Prueba.rechaza_h0 Prueba.r_alpha].
  rewrite (z_guardado_formula _ H1 H2 H3).
  rewrite (Rabs_pos_eq _ (z_formula_no_negativo _ _ _)).
  repeat split. exact Hs2.
Qed.

(** C1 (amended: at least three values).  For every input sequence with at
    least one value in each symbol class and at least three values, both
    classes return a result whose fields are: expected runs
    [2 n1 n2 / (n1 + n2) + 1]; standard deviation the square root of the
    variance [2 n1 n2 (2 n1 n2 - n1 - n2) / ((n1 + n2)^2 (n1 + n2 - 1))];
    statistic [|B - mu| / sqrt(variance)] with [B] one more than the number
    of changes of symbol; critical value [norm.ppf(1 - alpha/2)]; p-value
    [2 (1 - norm.cdf(|z|))]; and the null hypothesis is rejected exactly
    when the statistic exceeds the critical value.  The symbols are those of
    each class: ['+'] is [> 0.5] in rachas_encima_debajo.py and [>= 0.5] in
    prueba_rachas_enc_deb.py. *)
Theorem C1_estadisticos_de_la_prueba (norm : distribucion) (datos : list Q)
        (alpha : R) :
  (let sec := simbolos_gt datos in
   let n1 := count Mas sec in
   let n2 := count Menos sec in
   let B := (1 + cambios sec)%Z in
   (1 <= n1)%Z -> (1 <= n2)%Z -> (3 <= n1 + n2)%Z ->
   exists r,
     Rachas.invocar norm datos alpha = inr (Rachas.Dict_resultado r)
     /\ Rachas.r_n1 r = n1 /\ Rachas.r_n2 r = n2
     /\ Rachas.rachas_observadas r = B
     /\ Rachas.rachas_esperadas r = mu_formula n1 n2
     /\ Rachas.desviacion_estandar r = sqrt (sigma2_formula n1 n2)
     /\ Rachas.estadistico r = z_formula B n1 n2
     /\ Rachas.valor_critico r = ppf norm (1 - alpha / 2)%R
     /\ Rachas.p_valor r
        = (2 * (1 - cdf norm (Rabs (Rachas.estadistico r))))%R
     /\ (Rachas.rechaza_h0 r = true
         <-> (Rachas.estadistico r > Rachas.valor_critico r)%R))
  /\ (let sec := simbolos_ge datos in
      let n1 := count Mas sec in
      let n2 := count Menos sec in
      let B := (1 + cambios sec)%Z in
      (1 <= n1)%Z -> (1 <= n2)%Z -> (3 <= n1 + n2)%Z ->
      exists r s,
        Prueba.invocar norm datos alpha = (Prueba.Dict_resultado r, s)
        /\ Prueba.r_n1 r = n1 /\ Prueba.r_n2 r = n2
        /\ Prueba.r_B r = B
        /\ Prueba.r_mu_B r = mu_formula n1 n2
        /\ Prueba.sigma2_B s = sigma2_formula n1 n2
        /\ Prueba.r_sigma_B r = sqrt (sigma2_formula n1 n2)
        /\ Prueba.estadistico r = z_formula B n1 n2
        /\ Prueba.valor_critico r = ppf norm (1 - alpha / 2)%R
        /\ Prueba.r_p_valor r
           = (2 * (1 - cdf norm (Rabs (Prueba.estadistico r))))%R
        /\ (Prueba.rechaza_h0 r = true
            <-> (Prueba.estadistico r > Prueba.valor_critico r)%R)).
Proof.
  split; cbv zeta; intros H1 H2 H3.
  - destruct (@invocar_rachas_resultado norm datos alpha H1 H2 H3)
      as (r & Hi & K1 & K2 & K3 & K4 & K5 & K6 & K7 & K8 & K9 & _).
    exists r. repeat split; try assumption.
    + intros Hr. rewrite K9 in Hr. now apply rlt_bool in Hr.
    + intros Hr. rewrite K9. now apply rlt_bool.
  - destruct (@invocar_prueba_resultado norm datos alpha H1 H2 H3)
      as (r & s & Hi & K1 & K2 & K3 & K4 & K5 & K6 & K7 & K8 & K9 & K10 & _).
    exists r, s. repeat split; try assumption.
    + intros Hr. rewrite K10 in Hr. now apply rlt_bool in Hr.
    + intros Hr. rewrite K10. now apply rlt_bool.
Qed.

(** The two classes on 0.1, 0.9, 0.1: one value above, two below, three
    runs. *)
Lemma C1_estadisticos_de_la_prueba_witness :
  (exists r,
      Rachas.invocar norm_lineal [1#10; 9#10; 1#10] (5/100)%R
      = inr (Rachas.Dict_resultado r)
      /\ Rachas.rachas_observadas r = 3%Z
      /\ Rachas.rachas_esperadas r = mu_formula 1 2)
  /\ (exists r s,
         Prueba.invocar norm_lineal [1#10; 9#10; 1#10] (5/100)%R
         = (Prueba.Dict_resultado r, s)
         /\ Prueba.r_B r = 3%Z
         /\ Prueba.r_mu_B r = mu_formula 1 2).
Proof.
  pose proof (@C1_estadisticos_de_la_prueba norm_lineal [1#10; 9#10; 1#10]
                (5/100)%R) as [HR HP].
  cbv zeta in HR, HP. split.
  - destruct HR as (r & Hi & _ & _ & HB & Hmu & _);
      [vm_compute; discriminate ..|].
    exists r. repeat split; assumption.
  - destruct HP as (r & s & Hi & _ & _ & HB & Hmu & _);
      [vm_compute; discriminate ..|].
    exists r, s. repeat split; assumption.
Defined.

(** The class of rachas_encima_debajo.py on 0.1, 0.9: one value in each
    class, and an error dictionary instead of a result. *)
Lemma C1_contraejemplo :
  count Mas (simbolos_gt [1#10; 9#10]) = 1%Z
  /\ count Menos (simbolos_gt [1#10; 9#10]) = 1%Z
  /\ Rachas.invocar norm_lineal [1#10; 9#10] (5/100)%R
     = inr (Rachas.Dict_error Rachas.Error_desviacion_cero).
Proof.
  split; [reflexivity|]. split; [reflexivity|].
  rewrite invocar_rachas_no_vacio by discriminate. f_equal.
  apply ejecutar_rachas_desviacion_cero; reflexivity.
Qed.

(** ** Sequences with a single symbol class *)

Lemma mu_una_clase (n1 n2 : Z) :
  (n1 = 0 \/ n2 = 0)%Z -> mu_formula n1 n2 = 1%R.
Proof.
  intros [-> | ->]; unfold mu_formula, Rdiv;
    match goal with
    | |- (?a * _ + 1)%R = _ => replace a with 0%R by ring
    end; ring.
Qed.

Lemma sigma_una_clase (n1 n2 : Z) :
  (n1 = 0 \/ n2 = 0)%Z -> sqrt (sigma2_formula n1 n2) = 0%R.
Proof.
  intros H. rewrite sigma2_cero by tauto. apply sqrt_0.
Qed.

(** C2 (amended: the two classes differ).  For every non-empty input
    sequence whose symbols all fall in one class, [ejecutar] of
    rachas_encima_debajo.py returns the error dictionary "No se pueden
    calcular las rachas", taken at its first test, with no statistic in it.
    On such a sequence of length at least 2, [ejecutar] of
    prueba_rachas_enc_deb.py returns a result dictionary instead, with
    expected runs 1, standard deviation 0 and statistic 0. *)
Theorem C2_una_sola_clase (norm : distribucion) (datos : list Q) (alpha : R) :
  (datos <> [] ->
   (count Mas (simbolos_gt datos) = 0
    \/ count Menos (simbolos_gt datos) = 0)%Z ->
   Rachas.invocar norm datos alpha
   = inr (Rachas.Dict_error Rachas.Error_sin_rachas))
  /\ ((2 <= List.length datos)%nat ->
      (count Mas (simbolos_ge datos) = 0
       \/ count Menos (simbolos_ge datos) = 0)%Z ->
      exists r s,
        Prueba.invocar norm datos alpha = (Prueba.Dict_resultado r, s)
        /\ Prueba.r_mu_B r = 1%R
        /\ Prueba.r_sigma_B r = 0%R
        /\ Prueba.estadistico r = 0%R).
Proof.
  split.
  - intros Hne H. rewrite invocar_rachas_no_vacio by assumption. f_equal.
    apply ejecutar_rachas_sin_rachas. exact H.
  - intros Hlen H.
    destruct (@ejecutar_prueba_resultado norm (Prueba.__init__ datos alpha)
                Hlen) as (s' & He & _).
    cbn [Prueba.__init__ Prueba.numeros Prueba.alpha] in He.
    exists (resultado_prueba norm datos alpha), s'.
    split; [exact He|].
    unfold resultado_prueba.
    cbn [Prueba.r_mu_B Prueba.r_sigma_B Prueba.estadistico].
    repeat split.
    + now apply mu_una_clase.
    + now apply sigma_una_clase.
    + apply z_guardado_cero. now apply sigma_una_clase.
Qed.

(** The two classes on the constant sequence 0.1, 0.1. *)
Lemma C2_una_sola_clase_witness :
  Rachas.invocar norm_lineal [1#10; 1#10] (5/100)%R
  = inr (Rachas.Dict_error Rachas.Error_sin_rachas)
  /\ exists r s,
       Prueba.invocar norm_lineal [1#10; 1#10] (5/100)%R
       = (Prueba.Dict_resultado r, s)
       /\ Prueba.r_sigma_B r = 0%R.
Proof.
  pose proof (@C2_una_sola_clase norm_lineal [1#10; 1#10] (5/100)%R)
    as [HR HP].
  split.
  - apply HR; [discriminate | left; reflexivity].
  - destruct HP as (r & s & Hi & _ & Hs & _);
      [simpl; lia | left; reflexivity |].
    exists r, s. split; assumption.
Defined.

(** The class of prueba_rachas_enc_deb.py on the constant sequence 0.1, 0.1:
    no value in the ['+'] class, and a result dictionary with statistic 0
    instead of a failure. *)
Lemma C2_contraejemplo :
  count Mas (simbolos_ge [1#10; 1#10]) = 0%Z
  /\ exists s,
       Prueba.invocar norm_lineal [1#10; 1#10] (5/100)%R
       = (Prueba.Dict_resultado
            (resultado_prueba norm_lineal [1#10; 1#10] (5/100)%R), s)
       /\ Prueba.estadistico
            (resultado_prueba norm_lineal [1#10; 1#10] (5/100)%R) = 0%R.
Proof.
  split; [reflexivity|].
  destruct (@ejecutar_prueba_resultado norm_lineal
              (Prueba.__init__ [1#10; 1#10] (5/100)%R)) as (s' & He & _);
    [simpl; lia|].
  exists s'. split; [exact He|].
  apply z_guardado_cero, sigma_una_clase. left. reflexivity.
Qed.

(** C10 (amended: the decision depends on alpha).  In
    prueba_rachas_enc_deb.py, when the standard deviation computed for a
    sequence of at least two values is 0 (so in particular for a sequence
    whose symbols all fall in one class), [ejecutar] does not fail: for
    every alpha it returns a result dictionary with statistic 0 and p-value
    1.  The null hypothesis is rejected exactly when the critical value
    [norm.ppf(1 - alpha/2)] is negative; so it is not rejected for any alpha
    in (0,1).  Of the normal distribution it is assumed that its cdf is 1/2
    at 0 and, for the last part, that its quantiles above 1/2 are
    positive. *)
Theorem C10_desviacion_cero (norm : distribucion) (datos : list Q)
        (alpha : R) :
  cdf norm 0 = (1 / 2)%R ->
  (2 <= List.length datos)%nat ->
  sqrt (sigma2_formula (count Mas (simbolos_ge datos))
                       (count Menos (simbolos_ge datos))) = 0%R ->
  exists r s,
    Prueba.invocar norm datos alpha = (Prueba.Dict_resultado r, s)
    /\ Prueba.sigma_B s = 0%R
    /\ Prueba.r_sigma_B r = 0%R
    /\ Prueba.estadistico r = 0%R
    /\ Prueba.r_p_valor r = 1%R
    /\ (Prueba.rechaza_h0 r = true <-> (ppf norm (1 - alpha / 2) < 0)%R)
    /\ ((forall p : R, (1 / 2 < p < 1)%R -> (0 < ppf norm p)%R) ->
        (0 < alpha < 1)%R ->
        Prueba.rechaza_h0 r = false).
Proof.
  intros Hcdf Hlen Hsigma.
  destruct (@ejecutar_prueba_resultado norm (Prueba.__init__ datos alpha) Hlen)
    as (s' & He & _ & Hs & _).
  cbn [Prueba.__init__ Prueba.numeros Prueba.alpha] in He, Hs.
  exists (resultado_prueba norm datos alpha), s'.
  split; [exact He|]. split; [congruence|].
  unfold resultado_prueba.
  cbn [Prueba.r_sigma_B Prueba.estadistico Prueba.r_p_valor Prueba.rechaza_h0].
  rewrite (z_guardado_cero _ _ _ Hsigma), Rabs_R0, Hcdf.
  split; [assumption|]. split; [reflexivity|]. split; [lra|]. split.
  - apply rlt_bool.
  - intros Hppf Halpha.
    destruct (Rlt_dec _ 0%R) as [Hlt|_]; [|reflexivity].
    assert (0 < ppf norm (1 - alpha / 2))%R by (apply Hppf; lra).
    lra.
Qed.

Lemma cdf_lineal_0 : cdf_lineal 0 = (1 / 2)%R.
Proof.
  unfold cdf_lineal.
  destruct (Rle_dec 0 (-2)); [lra|].
  destruct (Rle_dec 2 0); lra.
Qed.

(** The constant sequence 0.1, 0.1 at alpha = 0.05. *)
Lemma C10_desviacion_cero_witness :
  exists r s,
    Prueba.invocar norm_lineal [1#10; 1#10] (5/100)%R
    = (Prueba.Dict_resultado r, s)
    /\ Prueba.estadistico r = 0%R
    /\ Prueba.r_p_valor r = 1%R
    /\ Prueba.rechaza_h0 r = false.
Proof.
  destruct (@C10_desviacion_cero norm_lineal [1#10; 1#10] (5/100)%R)
    as (r & s & Hi & _ & _ & Hz & Hp & _ & Hr).
  - exact cdf_lineal_0.
  - simpl. lia.
  - apply sigma_una_clase. left. reflexivity.
  - exists r, s. repeat split; try assumption.
    apply Hr; [|lra].
    intros p Hp'. simpl. unfold ppf_lineal. lra.
Defined.

(** The constant sequence 0.1, 0.1 at alpha = 1.5, which nothing refuses:
    the standard deviation is 0, the statistic 0 and the p-value 1, and the
    null hypothesis is rejected, because the critical value, the 0.25
    quantile, is negative. *)
Lemma C10_contraejemplo :
  sqrt (sigma2_formula (count Mas (simbolos_ge [1#10; 1#10]))
                       (count Menos (simbolos_ge [1#10; 1#10]))) = 0%R
  /\ exists s,
       Prueba.invocar norm_lineal [1#10; 1#10] (3/2)%R
       = (Prueba.Dict_resultado
            (resultado_prueba norm_lineal [1#10; 1#10] (3/2)%R), s)
       /\ Prueba.estadistico
            (resultado_prueba norm_lineal [1#10; 1#10] (3/2)%R) = 0%R
       /\ Prueba.r_p_valor
            (resultado_prueba norm_lineal [1#10; 1#10] (3/2)%R) = 1%R
       /\ Prueba.rechaza_h0
            (resultado_prueba norm_lineal [1#10; 1#10] (3/2)%R) = true.
Proof.
  assert (Hsigma : sqrt (sigma2_formula (count Mas (simbolos_ge [1#10; 1#10]))
                           (count Menos (simbolos_ge [1#10; 1#10]))) = 0%R)
    by (apply sigma_una_clase; left; reflexivity).
  split; [exact Hsigma|].
  destruct (@ejecutar_prueba_resultado norm_lineal
              (Prueba.__init__ [1#10; 1#10] (3/2)%R)) as (s' & He & _);
    [simpl; lia|].
  exists s'. split; [exact He|].
  unfold resultado_prueba.
  cbn [Prueba.estadistico Prueba.r_p_valor Prueba.rechaza_h0].
  rewrite (z_guardado_cero _ _ _ Hsigma), Rabs_R0.
  cbn [cdf ppf norm_lineal]. rewrite cdf_lineal_0.
  split; [reflexivity|]. split; [lra|].
  apply rlt_bool. unfold ppf_lineal. lra.
Qed.

(** ** The empty sequence *)

(** C6 (amended: the failure is not one of the empty input as such).  On
    the empty sequence every test invocation fails, and no statistic is
    computed.  The constructor of rachas_encima_debajo.py raises its
    [ValueError] at its length test, before anything else: an exception out
    of the constructor, not a dictionary.  prueba_rachas_enc_deb.py has no
    test for the empty sequence: its first statistic, the expected value,
    divides by [n1 + n2 = 0]; the [ZeroDivisionError] is caught by
    [ejecutar], which returns its error dictionary, the same dictionary a
    sequence of one value gets; the six statistics of the object still have
    their initial value 0. *)
Theorem C6_secuencia_vacia (norm : distribucion) (alpha : R) :
  Rachas.__init__ [] alpha = inl Rachas.ValueError_datos_vacios
  /\ Rachas.invocar norm [] alpha = inl Rachas.ValueError_datos_vacios
  /\ (exists s,
         Prueba.invocar norm [] alpha
         = (Prueba.Dict_error (error_division alpha), s)
         /\ Prueba._calcular_estadisticos norm
              (pasos_1_a_5 (Prueba.__init__ [] alpha))
            = Prueba.Lanza Prueba.ZeroDivisionError s
         /\ Prueba.mu_B s = 0%R /\ Prueba.sigma2_B s = 0%R
         /\ Prueba.sigma_B s = 0%R /\ Prueba.z_prueba s = 0%R
         /\ Prueba.z_teorico s = 0%R /\ Prueba.p_valor s = 0%R)
  /\ (forall x : Q,
         fst (Prueba.invocar norm [x] alpha)
         = fst (Prueba.invocar norm [] alpha)).
Proof.
  split; [reflexivity|]. split; [reflexivity|]. split.
  - eexists. split; [reflexivity|]. split; [reflexivity|].
    cbn. repeat split.
  - intros x. unfold Prueba.invocar.
    destruct (@ejecutar_prueba_error norm (Prueba.__init__ [x] alpha))
      as (s1 & E1 & _); [cbn; lia|].
    destruct (@ejecutar_prueba_error norm (Prueba.__init__ [] alpha))
      as (s0 & E0 & _); [cbn; lia|].
    rewrite E1, E0. reflexivity.
Qed.

(** The empty sequence in both classes: an exception out of the constructor
    of rachas_encima_debajo.py, and from prueba_rachas_enc_deb.py the
    dictionary of a division by zero, which is also what the sequence 0.1
    gets. *)
Lemma C6_contraejemplo :
  Rachas.invocar norm_lineal [] (5/100)%R
  = inl Rachas.ValueError_datos_vacios
  /\ (exists s,
         Prueba.invocar norm_lineal [] (5/100)%R
         = (Prueba.Dict_error (error_division (5/100)%R), s))
  /\ Prueba.mensaje (error_division (5/100)%R) = Prueba.ZeroDivisionError
  /\ (exists s,
         Prueba.invocar norm_lineal [1#10] (5/100)%R
         = (Prueba.Dict_error (error_division (5/100)%R), s)).
Proof.
  split; [reflexivity|]. split; [|split; [reflexivity|]].
  - destruct (@ejecutar_prueba_error norm_lineal
                (Prueba.__init__ [] (5/100)%R)) as (s & E & _); [cbn; lia|].
    exists s. exact E.
  - destruct (@ejecutar_prueba_error norm_lineal
                (Prueba.__init__ [1#10] (5/100)%R)) as (s & E & _);
      [cbn; lia|].
    exists s. exact E.
Qed.

(** ** Invocations are functions of the sequence and of alpha *)

Section Pureza.

Variable norm : distribucion.

(** The dictionary [ejecutar] of prueba_rachas_enc_deb.py returns depends on
    the numbers and on alpha only. *)
Lemma ejecutar_prueba_funcion (s t : Prueba.objeto) :
  Prueba.numeros s = Prueba.numeros t ->
  Prueba.alpha s = Prueba.alpha t ->
  fst (Prueba.ejecutar norm s) = fst (Prueba.ejecutar norm t).
Proof.
  intros Hn Ha.
  destruct (le_lt_dec 2 (List.length (Prueba.numeros s))) as [Hl|Hl].
  - destruct (@ejecutar_prueba_resultado norm s Hl) as (s' & Es & _).
    rewrite Hn in Hl.
    destruct (@ejecutar_prueba_resultado norm t Hl) as (t' & Et & _).
    rewrite Es, Et. cbn [fst]. now rewrite Hn, Ha.
  - assert (Hl' : (List.length (Prueba.numeros s) <= 1)%nat) by lia.
    destruct (@ejecutar_prueba_error norm s Hl') as (s' & Es & _).
    rewrite Hn in Hl'.
    destruct (@ejecutar_prueba_error norm t Hl') as (t' & Et & _).
    rewrite Es, Et. cbn [fst]. now rewrite Ha.
Qed.

(** [ejecutar] of prueba_rachas_enc_deb.py leaves the sequence and alpha as
    they were. *)
Lemma ejecutar_prueba_conserva (s : Prueba.objeto) :
  Prueba.numeros (snd (Prueba.ejecutar norm s)) = Prueba.numeros s
  /\ Prueba.datos (snd (Prueba.ejecutar norm s)) = Prueba.datos s
  /\ Prueba.alpha (snd (Prueba.ejecutar norm s)) = Prueba.alpha s.
Proof.
  destruct (le_lt_dec 2 (List.length (Prueba.numeros s))) as [Hl|Hl].
  - destruct (@ejecutar_prueba_resultado norm s Hl)
      as (s' & Es & _ & _ & K1 & K2 & K3).
    rewrite Es. cbn [snd]. auto.
  - assert (Hl' : (List.length (Prueba.numeros s) <= 1)%nat) by lia.
    destruct (@ejecutar_prueba_error norm s Hl') as (s' & Es & K1 & K2 & K3).
    rewrite Es. cbn [snd]. auto.
Qed.

End Pureza.

(** C8.  Each invocation is a function of the sample sequence and of alpha.
    In prueba_rachas_enc_deb.py, whatever the attributes of the object hold
    when [ejecutar] starts, the dictionary returned is the one a fresh object
    with the same numbers and alpha returns; so a second [ejecutar] on the
    same object returns the same dictionary as the first; and [ejecutar]
    leaves the numbers, the data and alpha of the object unchanged.  In
    rachas_encima_debajo.py the constructor keeps the data and alpha as
    given, [ejecutar] assigns no attribute, and invoking again on the data
    and alpha the object holds gives the same outcome. *)
Theorem C8_invocaciones_puras (norm : distribucion) (self : Prueba.objeto)
        (datos : list Q) (alpha : R) :
  fst (Prueba.ejecutar norm self)
  = fst (Prueba.invocar norm (Prueba.numeros self) (Prueba.alpha self))
  /\ fst (Prueba.ejecutar norm (snd (Prueba.ejecutar norm self)))
     = fst (Prueba.ejecutar norm self)
  /\ Prueba.numeros (snd (Prueba.ejecutar norm self)) = Prueba.numeros self
  /\ Prueba.datos (snd (Prueba.ejecutar norm self)) = Prueba.datos self
  /\ Prueba.alpha (snd (Prueba.ejecutar norm self)) = Prueba.alpha self
  /\ match Rachas.__init__ datos alpha with
     | inl _ => datos = []
     | inr obj =>
         Rachas.datos obj = datos /\ Rachas.alpha obj = alpha
         /\ Rachas.invocar norm (Rachas.datos obj) (Rachas.alpha obj)
            = inr (Rachas.ejecutar norm obj)
     end.
Proof.
  destruct (ejecutar_prueba_conserva norm self) as (K1 & K2 & K3).
  split; [apply ejecutar_prueba_funcion; reflexivity|].
  split; [apply ejecutar_prueba_funcion; assumption|].
  repeat (split; [assumption|]).
  destruct datos as [|x l]; [reflexivity|].
  rewrite init_rachas_no_vacio by discriminate.
  cbn [objeto_rachas Rachas.datos Rachas.alpha].
  repeat split.
Qed.

(** ** The two classes side by side *)

Lemma Qgtb_lt (x : Q) : Qgtb x medio = true <-> medio < x.
Proof.
  unfold Qgtb. rewrite negb_true_iff. split.
  - intros H. apply Qnot_le_lt. intros Hle.
    apply Qle_bool_iff in Hle. congruence.
  - intros H. destruct (Qle_bool x medio) eqn:E; [|reflexivity].
    apply Qle_bool_iff in E. exfalso. exact (Qlt_not_le _ _ H E).
Qed.

Lemma Qgeb_le (x : Q) : Qgeb x medio = true <-> medio <= x.
Proof. unfold Qgeb. apply Qle_bool_iff. Qed.

(** Away from 0.5 the strict and the non-strict comparison agree. *)
Lemma Qgtb_Qgeb (x : Q) : ~ x == medio -> Qgtb x medio = Qgeb x medio.
Proof.
  intros Hx.
  destruct (Qgtb x medio) eqn:E1, (Qgeb x medio) eqn:E2; try reflexivity.
  - apply Qgtb_lt in E1. apply Qlt_le_weak, Qgeb_le in E1. congruence.
  - apply Qgeb_le in E2.
    destruct (Qle_lt_or_eq _ _ E2) as [Hlt|Heq].
    + apply Qgtb_lt in Hlt. congruence.
    + exfalso. apply Hx. symmetry. exact Heq.
Qed.

Lemma simbolos_sin_medio (datos : list Q) :
  Forall (fun x => ~ x == medio) datos -> simbolos_gt datos = simbolos_ge datos.
Proof.
  intros H. unfold simbolos_gt, simbolos_ge. apply map_ext_in.
  intros x Hx. rewrite Forall_forall in H. now rewrite Qgtb_Qgeb by auto.
Qed.

Lemma count_Mas_encima (datos : list Q) :
  Exists (fun x => medio < x) datos -> (1 <= count Mas (simbolos_gt datos))%Z.
Proof.
  induction 1 as [x l Hx | x l _ IH]; cbn [simbolos_gt map count].
  - apply Qgtb_lt in Hx. rewrite Hx. cbn [simbolo_eqb].
    pose proof (count_no_negativo Mas (simbolos_gt l)).
    unfold simbolos_gt in *. lia.
  - unfold simbolos_gt in IH.
    destruct (Qgtb x medio); cbn [simbolo_eqb]; lia.
Qed.

Lemma count_Menos_debajo (datos : list Q) :
  Exists (fun x => x < medio) datos ->
  (1 <= count Menos (simbolos_gt datos))%Z.
Proof.
  induction 1 as [x l Hx | x l _ IH]; cbn [simbolos_gt map count].
  - assert (E : Qgtb x medio = false).
    { destruct (Qgtb x medio) eqn:E; [|reflexivity].
      apply Qgtb_lt in E. exfalso.
      exact (Qlt_irrefl _ (Qlt_trans _ _ _ Hx E)). }
    rewrite E. cbn [simbolo_eqb].
    pose proof (count_no_negativo Menos (simbolos_gt l)).
    unfold simbolos_gt in *. lia.
  - unfold simbolos_gt in IH.
    destruct (Qgtb x medio); cbn [simbolo_eqb]; lia.
Qed.

(** C3 (amended: at least three values).  For every input sequence of
    length at least 3 with no value equal to 0.5, at least one value above
    0.5 and at least one below, the class of rachas_encima_debajo.py (strict
    comparison, runs counted by transitions) and the class of
    prueba_rachas_enc_deb.py (non-strict comparison, runs counted by
    grouping) both return a result, with equal statistic, critical value,
    p-value and decision, and equal counts, runs, expected runs and standard
    deviation. *)
Theorem C3_implementaciones_coinciden (norm : distribucion) (datos : list Q)
        (alpha : R) :
  (3 <= List.length datos)%nat ->
  Forall (fun x => ~ x == medio) datos ->
  Exists (fun x => medio < x) datos ->
  Exists (fun x => x < medio) datos ->
  exists r1 r2 s,
    Rachas.invocar norm datos alpha = inr (Rachas.Dict_resultado r1)
    /\ Prueba.invocar norm datos alpha = (Prueba.Dict_resultado r2, s)
    /\ Rachas.estadistico r1 = Prueba.estadistico r2
    /\ Rachas.valor_critico r1 = Prueba.valor_critico r2
    /\ Rachas.p_valor r1 = Prueba.r_p_valor r2
    /\ Rachas.rechaza_h0 r1 = Prueba.rechaza_h0 r2
    /\ Rachas.r_n1 r1 = Prueba.r_n1 r2
    /\ Rachas.r_n2 r1 = Prueba.r_n2 r2
    /\ Rachas.rachas_observadas r1 = Prueba.r_B r2
    /\ Rachas.rachas_esperadas r1 = Prueba.r_mu_B r2
    /\ Rachas.desviacion_estandar r1 = Prueba.r_sigma_B r2.
Proof.
  intros Hlen Hmedio Hsup Hinf.
  pose proof (simbolos_sin_medio Hmedio) as Hsim.
  pose proof (count_Mas_encima Hsup) as H1.
  pose proof (count_Menos_debajo Hinf) as H2.
  assert (H3 : (3 <= count Mas (simbolos_gt datos)
                     + count Menos (simbolos_gt datos))%Z).
  { rewrite count_total. unfold simbolos_gt. rewrite length_map. lia. }
  destruct (@invocar_rachas_resultado norm datos alpha H1 H2 H3)
    as (r1 & Hi1 & A1 & A2 & A3 & A4 & A5 & A6 & A7 & A8 & A9 & _).
  rewrite Hsim in H1, H2, H3.
  destruct (@invocar_prueba_resultado norm datos alpha H1 H2 H3)
    as (r2 & s & Hi2 & B1 & B2 & B3 & B4 & _ & B5 & B6 & B7 & B8 & B9 & _).
  rewrite Hsim in *.
  exists r1, r2, s.
  assert (Ez : Rachas.estadistico r1 = Prueba.estadistico r2) by congruence.
  assert (Ev : Rachas.valor_critico r1 = Prueba.valor_critico r2)
    by congruence.
  repeat split; try congruence.
  rewrite A9, B9, Ez, Ev. reflexivity.
Qed.

(** The two classes on 0.1, 0.9, 0.1. *)
Lemma C3_implementaciones_coinciden_witness :
  exists r1 r2 s,
    Rachas.invocar norm_lineal [1#10; 9#10; 1#10] (5/100)%R
    = inr (Rachas.Dict_resultado r1)
    /\ Prueba.invocar norm_lineal [1#10; 9#10; 1#10] (5/100)%R
       = (Prueba.Dict_resultado r2, s)
    /\ Rachas.estadistico r1 = Prueba.estadistico r2
    /\ Rachas.rechaza_h0 r1 = Prueba.rechaza_h0 r2.
Proof.
  destruct (@C3_implementaciones_coinciden norm_lineal [1#10; 9#10; 1#10]
              (5/100)%R)
    as (r1 & r2 & s & H1 & H2 & Hz & _ & _ & Hr & _).
  - simpl. lia.
  - repeat constructor; intros H; vm_compute in H; discriminate.
  - apply Exists_cons_tl, Exists_cons_hd. reflexivity.
  - apply Exists_cons_hd. reflexivity.
  - exists r1, r2, s. repeat split; assumption.
Defined.

(** The two classes on 0.1, 0.9, a sequence of length 2 without 0.5 and with
    a value on each side: an error dictionary from one, a result dictionary
    from the other. *)
Lemma C3_contraejemplo :
  Rachas.invocar norm_lineal [1#10; 9#10] (5/100)%R
  = inr (Rachas.Dict_error Rachas.Error_desviacion_cero)
  /\ exists s,
       Prueba.invocar norm_lineal [1#10; 9#10] (5/100)%R
       = (Prueba.Dict_resultado
            (resultado_prueba norm_lineal [1#10; 9#10] (5/100)%R), s).
Proof.
  split.
  - rewrite invocar_rachas_no_vacio by discriminate. f_equal.
    apply ejecutar_rachas_desviacion_cero; reflexivity.
  - destruct (@ejecutar_prueba_resultado norm_lineal
                (Prueba.__init__ [1#10; 9#10] (5/100)%R)) as (s' & He & _);
      [simpl; lia|].
    exists s'. exact He.
Qed.

(** ** The alternating sequence *)

Lemma alternante_100_gt :
  count Mas (simbolos_gt (alternante 50)) = 50%Z
  /\ count Menos (simbolos_gt (alternante 50)) = 50%Z
  /\ cambios (simbolos_gt (alternante 50)) = 99%Z
  /\ List.length (alternante 50) = 100%nat.
Proof. repeat split; vm_compute; reflexivity. Qed.

Lemma alternante_100_ge :
  count Mas (simbolos_ge (alternante 50)) = 50%Z
  /\ count Menos (simbolos_ge (alternante 50)) = 50%Z
  /\ cambios (simbolos_ge (alternante 50)) = 99%Z.
Proof. repeat split; vm_compute; reflexivity. Qed.

(** With 50 symbols of each kind and 100 runs the statistic is above 2
    (it is about 9.85). *)
Lemma z_alternante : (2 < z_formula 100 50 50)%R.
Proof.
  unfold z_formula.
  assert (Hmu : mu_formula 50 50 = 51%R) by (unfold mu_formula; lra).
  assert (Hs2 : sigma2_formula 50 50 = (2450 / 99)%R)
    by (unfold sigma2_formula; field).
  rewrite Hmu, Hs2.
  replace (100 - 51)%R with 49%R by ring.
  rewrite Rabs_pos_eq by lra.
  assert (Hpos : (0 < sqrt (2450 / 99))%R) by (apply sqrt_lt_R0; lra).
  assert (Hlt : (sqrt (2450 / 99) < 49 / 2)%R).
  { rewrite <- (sqrt_square (49 / 2)) by lra.
    apply sqrt_lt_1_alt. lra. }
  apply Rmult_lt_reg_r with (sqrt (2450 / 99)); [assumption|].
  unfold Rdiv. rewrite Rmult_assoc, Rinv_l by lra. lra.
Qed.

(** C5.  On the alternating sequence 0.1, 0.9, 0.1, 0.9, ... of length 100
    with alpha = 0.05, both classes count 50 values in each symbol class and
    100 runs, as many as there are values, and reject the null hypothesis.
    Of the normal distribution it is assumed that its 0.975 quantile is at
    most 2 (it is about 1.96). *)
Theorem C5_secuencia_alternante (norm : distribucion) :
  (ppf norm (1 - 5 / 100 / 2) <= 2)%R ->
  (exists r,
      Rachas.invocar norm (alternante 50) (5 / 100)%R
      = inr (Rachas.Dict_resultado r)
      /\ Rachas.r_n_total r = 100%Z
      /\ Rachas.r_n1 r = 50%Z /\ Rachas.r_n2 r = 50%Z
      /\ Rachas.rachas_observadas r = 100%Z
      /\ Rachas.rachas_esperadas r = 51%R
      /\ Rachas.rechaza_h0 r = true)
  /\ (exists r s,
         Prueba.invocar norm (alternante 50) (5 / 100)%R
         = (Prueba.Dict_resultado r, s)
         /\ Prueba.total_datos r = 100%Z
         /\ Prueba.r_n1 r = 50%Z /\ Prueba.r_n2 r = 50%Z
         /\ Prueba.r_B r = 100%Z
         /\ Prueba.r_mu_B r = 51%R
         /\ Prueba.rechaza_h0 r = true).
Proof.
  intros Hq.
  assert (Hmu : mu_formula 50 50 = 51%R) by (unfold mu_formula; lra).
  pose proof z_alternante as Hz.
  split.
  - destruct alternante_100_gt as (E1 & E2 & E3 & E4).
    assert (Hne : alternante 50 <> [])
      by (intros E; rewrite E in E4; discriminate).
    rewrite (invocar_rachas_no_vacio norm (5 / 100)%R Hne).
    pose proof (@ejecutar_rachas_resultado norm
                  (objeto_rachas (alternante 50) (5 / 100)%R) eq_refl) as He.
    cbv zeta in He.
    cbn [objeto_rachas Rachas.n1 Rachas.n2 Rachas.secuencia Rachas.alpha
         Rachas.n_total Rachas.umbral] in He.
    assert (HR : Rachas._contar_rachas (simbolos_gt (alternante 50)) = 100%Z)
      by (vm_compute; reflexivity).
    rewrite E1, E2, E4, HR in He.
    rewrite He by lia.
    eexists. split; [reflexivity|].
    cbn [Rachas.r_n_total Rachas.r_n1 Rachas.r_n2 Rachas.rachas_observadas
         Rachas.rachas_esperadas Rachas.rechaza_h0].
    repeat split; try assumption.
    apply rlt_bool. lra.
  - destruct alternante_100_ge as (E1 & E2 & E3).
    destruct (@ejecutar_prueba_resultado norm
                (Prueba.__init__ (alternante 50) (5 / 100)%R))
      as (s' & He & _).
    { cbn [Prueba.__init__ Prueba.numeros].
      destruct alternante_100_gt as (_ & _ & _ & E4). rewrite E4. lia. }
    cbn [Prueba.__init__ Prueba.numeros Prueba.alpha] in He.
    exists (resultado_prueba norm (alternante 50) (5 / 100)%R), s'.
    split; [exact He|].
    unfold resultado_prueba.
    cbn [Prueba.total_datos Prueba.r_n1 Prueba.r_n2 Prueba.r_B Prueba.r_mu_B
         Prueba.rechaza_h0].
    rewrite E1, E2, E3.
    change (1 + 99)%Z with 100%Z.
    rewrite z_guardado_formula by lia.
    destruct alternante_100_gt as (_ & _ & _ & E4). rewrite E4.
    repeat split; try assumption.
    apply rlt_bool. rewrite Rabs_pos_eq by lra. lra.
Qed.

(** The alternating sequence with the quantiles of [norm_lineal], whose
    0.975 quantile is 1.9. *)
Lemma C5_secuencia_alternante_witness :
  (exists r,
      Rachas.invocar norm_lineal (alternante 50) (5 / 100)%R
      = inr (Rachas.Dict_resultado r)
      /\ Rachas.rachas_observadas r = 100%Z
      /\ Rachas.rechaza_h0 r = true)
  /\ (exists r s,
         Prueba.invocar norm_lineal (alternante 50) (5 / 100)%R
         = (Prueba.Dict_resultado r, s)
         /\ Prueba.r_B r = 100%Z
         /\ Prueba.rechaza_h0 r = true).
Proof.
  destruct (@C5_secuencia_alternante norm_lineal) as [HR HP].
  - simpl. unfold ppf_lineal. lra.
  - split.
    + destruct HR as (r & Hi & _ & _ & _ & HB & _ & Hr).
      exists r. repeat split; assumption.
    + destruct HP as (r & s & Hi & _ & _ & _ & HB & _ & Hr).
      exists r, s. repeat split; assumption.
Defined.

(** ** Alpha is not validated *)

(** C7 (amended: there is no validation of alpha).  For every real alpha,
    inside the interval (0,1) or not, both constructors accept it and keep
    it as given; and on a sequence with both symbols and at least three
    values [ejecutar] returns a result dictionary that carries alpha
    unchanged and whose critical value is [norm.ppf(1 - alpha/2)]. *)
Theorem C7_alpha_sin_validar (norm : distribucion) (datos : list Q)
        (alpha : R) :
  (datos <> [] ->
   exists self,
     Rachas.__init__ datos alpha = inr self /\ Rachas.alpha self = alpha)
  /\ Prueba.alpha (Prueba.__init__ datos alpha) = alpha
  /\ ((1 <= count Mas (simbolos_gt datos))%Z ->
      (1 <= count Menos (simbolos_gt datos))%Z ->
      (3 <= List.length datos)%nat ->
      exists r,
        Rachas.invocar norm datos alpha = inr (Rachas.Dict_resultado r)
        /\ Rachas.r_alpha r = alpha
        /\ Rachas.valor_critico r = ppf norm (1 - alpha / 2)%R)
  /\ ((1 <= count Mas (simbolos_ge datos))%Z ->
      (1 <= count Menos (simbolos_ge datos))%Z ->
      (3 <= List.length datos)%nat ->
      exists r s,
        Prueba.invocar norm datos alpha = (Prueba.Dict_resultado r, s)
        /\ Prueba.r_alpha r = alpha
        /\ Prueba.valor_critico r = ppf norm (1 - alpha / 2)%R).
Proof.
  split; [|split; [reflexivity|split]].
  - intros Hne. eexists. split; [now apply init_rachas_no_vacio|reflexivity].
  - intros H1 H2 Hlen.
    assert (H3 : (3 <= count Mas (simbolos_gt datos)
                       + count Menos (simbolos_gt datos))%Z).
    { rewrite count_total. unfold simbolos_gt. rewrite length_map. lia. }
    destruct (@invocar_rachas_resultado norm datos alpha H1 H2 H3)
      as (r & Hi & _ & _ & _ & _ & _ & _ & Hvc & _ & _ & Ha).
    exists r. auto.
  - intros H1 H2 Hlen.
    assert (H3 : (3 <= count Mas (simbolos_ge datos)
                       + count Menos (simbolos_ge datos))%Z).
    { rewrite count_total. unfold simbolos_ge. rewrite length_map. lia. }
    destruct (@invocar_prueba_resultado norm datos alpha H1 H2 H3)
      as (r & s & Hi & _ & _ & _ & _ & _ & _ & _ & Hvc & _ & _ & Ha).
    exists r, s. auto.
Qed.

(** Both classes on 0.1, 0.9, 0.1 with alpha = 2. *)
Lemma C7_alpha_sin_validar_witness :
  (exists r,
      Rachas.invocar norm_lineal [1#10; 9#10; 1#10] 2%R
      = inr (Rachas.Dict_resultado r)
      /\ Rachas.r_alpha r = 2%R)
  /\ (exists r s,
         Prueba.invocar norm_lineal [1#10; 9#10; 1#10] 2%R
         = (Prueba.Dict_resultado r, s)
         /\ Prueba.r_alpha r = 2%R).
Proof.
  destruct (@C7_alpha_sin_validar norm_lineal [1#10; 9#10; 1#10] 2%R)
    as (_ & _ & HR & HP).
  split.
  - destruct HR as (r & Hi & Ha & _);
      [vm_compute; discriminate | vm_compute; discriminate | simpl; lia |].
    exists r. split; assumption.
  - destruct HP as (r & s & Hi & Ha & _);
      [vm_compute; discriminate | vm_compute; discriminate | simpl; lia |].
    exists r, s. split; assumption.
Defined.

(** The class of rachas_encima_debajo.py on 0.1, 0.9, 0.1 with alpha = 2,
    which is not below 1: a result dictionary, with critical value
    [ppf(1 - 2/2)]. *)
Lemma C7_contraejemplo :
  (1 <= 2)%R
  /\ exists r,
       Rachas.invocar norm_lineal [1#10; 9#10; 1#10] 2%R
       = inr (Rachas.Dict_resultado r)
       /\ Rachas.r_alpha r = 2%R
       /\ Rachas.valor_critico r = ppf norm_lineal (1 - 2 / 2)%R.
Proof.
  split; [lra|].
  destruct (@invocar_rachas_resultado norm_lineal [1#10; 9#10; 1#10] 2%R)
    as (r & Hi & _ & _ & _ & _ & _ & _ & Hvc & _ & _ & Ha);
    [vm_compute; discriminate ..|].
  exists r. auto.
Qed.

(** * Further properties of the code *)

(** ** rachas_encima_debajo.py: the constructor and the outcomes *)

(** What the constructor leaves in the object: the symbol sequence has the
    length of the data, the two counts are not negative, and they add up to
    [n_total], which is the length of the data and equals [N]. *)
Theorem init_rachas_invariantes (datos : list Q) (alpha : R)
        (self : Rachas.objeto) :
  Rachas.__init__ datos alpha = inr self ->
  datos <> []
  /\ Rachas.datos self = datos
  /\ Rachas.alpha self = alpha
  /\ Rachas.n_total self = Z.of_nat (List.length datos)
  /\ List.length (Rachas.secuencia self) = List.length datos
  /\ (0 <= Rachas.n1 self)%Z /\ (0 <= Rachas.n2 self)%Z
  /\ (Rachas.n1 self + Rachas.n2 self)%Z = Rachas.n_total self
  /\ Rachas.N self = Rachas.n_total self.
Proof.
  intros H. destruct datos as [|x l]; [discriminate|].
  rewrite init_rachas_no_vacio in H by discriminate.
  injection H as <-.
  cbn [objeto_rachas Rachas.datos Rachas.alpha Rachas.n_total
       Rachas.secuencia Rachas.n1 Rachas.n2 Rachas.N].
  pose proof (count_total (simbolos_gt (x :: l))) as Ht.
  assert (Hl : List.length (simbolos_gt (x :: l)) = List.length (x :: l))
    by apply length_map.
  rewrite Hl in Ht.
  repeat split; try apply count_no_negativo; try assumption.
  discriminate.
Qed.

Lemma init_rachas_invariantes_witness :
  exists self,
    Rachas.__init__ [1#10; 9#10; 1#2] (5/100)%R = inr self
    /\ (Rachas.n1 self + Rachas.n2 self)%Z = Rachas.n_total self
    /\ Rachas.N self = Rachas.n_total self.
Proof.
  exists (objeto_rachas [1#10; 9#10; 1#2] (5/100)%R).
  pose proof (@init_rachas_invariantes [1#10; 9#10; 1#2] (5/100)%R
                (objeto_rachas [1#10; 9#10; 1#2] (5/100)%R) eq_refl)
    as (_ & _ & _ & _ & _ & _ & _ & H1 & H2).
  repeat split; assumption.
Defined.

(** The four outcomes of an invocation, by the data alone. *)
Lemma invocar_rachas_casos (norm : distribucion) (datos : list Q) (alpha : R) :
  let n1 := count Mas (simbolos_gt datos) in
  let n2 := count Menos (simbolos_gt datos) in
  (datos = []
   /\ Rachas.invocar norm datos alpha = inl Rachas.ValueError_datos_vacios)
  \/ (datos <> [] /\ (n1 = 0 \/ n2 = 0)%Z
      /\ Rachas.invocar norm datos alpha
         = inr (Rachas.Dict_error Rachas.Error_sin_rachas))
  \/ (n1 = 1%Z /\ n2 = 1%Z
      /\ Rachas.invocar norm datos alpha
         = inr (Rachas.Dict_error Rachas.Error_desviacion_cero))
  \/ ((1 <= n1)%Z /\ (1 <= n2)%Z /\ (3 <= n1 + n2)%Z
      /\ exists r,
           Rachas.invocar norm datos alpha = inr (Rachas.Dict_resultado r)).
Proof.
  cbv zeta.
  destruct datos as [|x l]; [left; split; reflexivity|].
  right.
  set (datos := x :: l).
  assert (Hne : datos <> []) by discriminate.
  pose proof (count_no_negativo Mas (simbolos_gt datos)) as P1.
  pose proof (count_no_negativo Menos (simbolos_gt datos)) as P2.
  destruct (Z.eq_dec (count Mas (simbolos_gt datos)) 0) as [E1|E1].
  { left. repeat split; [assumption|tauto|].
    rewrite invocar_rachas_no_vacio by assumption. f_equal.
    apply ejecutar_rachas_sin_rachas. left. exact E1. }
  destruct (Z.eq_dec (count Menos (simbolos_gt datos)) 0) as [E2|E2].
  { left. repeat split; [assumption|tauto|].
    rewrite invocar_rachas_no_vacio by assumption. f_equal.
    apply ejecutar_rachas_sin_rachas. right. exact E2. }
  right.
  destruct (Z.eq_dec (count Mas (simbolos_gt datos)
                      + count Menos (simbolos_gt datos)) 2) as [E3|E3].
  - left. assert (A1 : count Mas (simbolos_gt datos) = 1%Z) by lia.
    assert (A2 : count Menos (simbolos_gt datos) = 1%Z) by lia.
    repeat split; try assumption.
    rewrite invocar_rachas_no_vacio by assumption. f_equal.
    apply ejecutar_rachas_desviacion_cero; [reflexivity|assumption..].
  - right.
    assert (A1 : (1 <= count Mas (simbolos_gt datos))%Z) by lia.
    assert (A2 : (1 <= count Menos (simbolos_gt datos))%Z) by lia.
    assert (A3 : (3 <= count Mas (simbolos_gt datos)
                       + count Menos (simbolos_gt datos))%Z) by lia.
    repeat split; try assumption.
    destruct (@invocar_rachas_resultado norm datos alpha A1 A2 A3)
      as (r & Hr & _).
    exists r. exact Hr.
Qed.

(** Whatever the data and alpha, an invocation never returns the error
    dictionary "Denominador igual a cero": a sequence short enough to make
    the denominator 0 has a single symbol class and is refused by the first
    test of [ejecutar]. *)
Theorem rachas_denominador_inalcanzable (norm : distribucion)
        (datos : list Q) (alpha : R) :
  Rachas.invocar norm datos alpha
  <> inr (Rachas.Dict_error Rachas.Error_denominador_cero).
Proof.
  pose proof (invocar_rachas_casos norm datos alpha) as H. cbv zeta in H.
  destruct H as [(_ & H) | [(_ & _ & H) | [(_ & _ & H) | (_ & _ & _ & r & H)]]];
    rewrite H; discriminate.
Qed.

(** An invocation returns a result dictionary exactly when the data has a
    value above 0.5, a value that is not, and at least three values; it
    returns the error of a zero standard deviation exactly when there is one
    value of each kind; the error "No se pueden calcular las rachas" exactly
    when the data is not empty and one kind is missing; and it raises
    exactly on the empty data. *)
Theorem rachas_resultado_sii (norm : distribucion) (datos : list Q)
        (alpha : R) :
  let n1 := count Mas (simbolos_gt datos) in
  let n2 := count Menos (simbolos_gt datos) in
  ((exists r, Rachas.invocar norm datos alpha = inr (Rachas.Dict_resultado r))
   <-> (1 <= n1 /\ 1 <= n2 /\ 3 <= n1 + n2)%Z)
  /\ (Rachas.invocar norm datos alpha
      = inr (Rachas.Dict_error Rachas.Error_desviacion_cero)
      <-> (n1 = 1 /\ n2 = 1)%Z)
  /\ (Rachas.invocar norm datos alpha
      = inr (Rachas.Dict_error Rachas.Error_sin_rachas)
      <-> datos <> [] /\ (n1 = 0 \/ n2 = 0)%Z)
  /\ (Rachas.invocar norm datos alpha = inl Rachas.ValueError_datos_vacios
      <-> datos = []).
Proof.
  cbv zeta.
  pose proof (invocar_rachas_casos norm datos alpha) as H. cbv zeta in H.
  pose proof (count_no_negativo Mas (simbolos_gt datos)) as P1.
  pose proof (count_no_negativo Menos (simbolos_gt datos)) as P2.
  destruct H as [(D & H) | [(D & C & H) | [(C1 & C2 & H)
                                          | (C1 & C2 & C3 & r & H)]]];
    rewrite H.
  - assert (E1 : count Mas (simbolos_gt datos) = 0%Z) by now subst datos.
    assert (E2 : count Menos (simbolos_gt datos) = 0%Z) by now subst datos.
    split; [split; [intros [r K]; discriminate | lia]|].
    split; [split; [discriminate | lia]|].
    split; [split; [discriminate | intros [K _]; contradiction]|].
    split; [intros _; assumption | reflexivity].
  - split; [split; [intros [r K]; discriminate | lia]|].
    split; [split; [discriminate | lia]|].
    split; [split; [intros _; split; assumption | reflexivity]|].
    split; [discriminate | intros K; contradiction].
  - assert (Dne : datos <> []) by (apply simbolos_gt_no_vacio; lia).
    split; [split; [intros [r K]; discriminate | lia]|].
    split; [split; [intros _; split; assumption | reflexivity]|].
    split; [split; [discriminate | lia]|].
    split; [discriminate | intros K; contradiction].
  - assert (Dne : datos <> []) by (apply simbolos_gt_no_vacio; lia).
    split; [split; [intros _; lia | intros _; exists r; reflexivity]|].
    split; [split; [discriminate | lia]|].
    split; [split; [discriminate | lia]|].
    split; [discriminate | intros K; contradiction].
Qed.

(** ** prueba_rachas_enc_deb.py: when [ejecutar] fails *)

(** Whatever the object holds when [ejecutar] starts, it returns the error
    dictionary exactly when there are fewer than two numbers and a result
    dictionary exactly when there are at least two; the error is always the
    division by zero with the alpha of the object: [math.sqrt] never raises,
    because the variance is never negative. *)
Theorem prueba_error_sii (norm : distribucion) (self : Prueba.objeto) :
  ((exists e s, Prueba.ejecutar norm self = (Prueba.Dict_error e, s))
   <-> (List.length (Prueba.numeros self) <= 1)%nat)
  /\ ((exists r s, Prueba.ejecutar norm self = (Prueba.Dict_resultado r, s))
      <-> (2 <= List.length (Prueba.numeros self))%nat)
  /\ (forall e s,
         Prueba.ejecutar norm self = (Prueba.Dict_error e, s) ->
         e = error_division (Prueba.alpha self)
         /\ Prueba.mensaje e <> Prueba.ValueError_math_domain).
Proof.
  destruct (le_lt_dec 2 (List.length (Prueba.numeros self))) as [Hl|Hl].
  - destruct (@ejecutar_prueba_resultado norm self Hl) as (s' & Es & _).
    rewrite Es. split; [|split].
    + split; [intros (e & s & K); discriminate | lia].
    + split; [intros _; assumption | intros _; eauto].
    + intros e s K. discriminate.
  - assert (Hl' : (List.length (Prueba.numeros self) <= 1)%nat) by lia.
    destruct (@ejecutar_prueba_error norm self Hl') as (s' & Es & _).
    rewrite Es. split; [|split].
    + split; [intros _; assumption | intros _; eauto].
    + split; [intros (r & s & K); discriminate | lia].
    + intros e s K. injection K as <- _. split; [reflexivity|discriminate].
Qed.

(** On a sequence of one number [ejecutar] fails at the variance, after the
    expected value has been assigned: the object is left with one symbol,
    one group of length 1, [B = 1], the table with its single row and
    [mu_B = 1], while the other statistics keep their initial 0. *)
Theorem prueba_un_dato (norm : distribucion) (x : Q) (alpha : R) :
  let sim := if Qgeb x medio then Mas else Menos in
  exists s,
    Prueba.invocar norm [x] alpha
    = (Prueba.Dict_error (error_division alpha), s)
    /\ obtener_simbolos s = [sim]
    /\ obtener_grupos_detallados s = [(sim, 1%Z)]
    /\ Prueba.B s = 1%Z
    /\ obtener_tabla_detallada s = Some [(1%Z, 1%Z)]
    /\ Prueba.mu_B s = 1%R
    /\ Prueba.sigma2_B s = 0%R /\ Prueba.sigma_B s = 0%R
    /\ Prueba.z_prueba s = 0%R /\ Prueba.z_teorico s = 0%R
    /\ Prueba.p_valor s = 0%R.
Proof.
  cbv zeta. unfold Prueba.invocar. rewrite ejecutar_prueba_pasos.
  set (sim := if Qgeb x medio then Mas else Menos).
  set (p := pasos_1_a_5 (Prueba.__init__ [x] alpha)).
  assert (Hsim : Prueba.simbolos p = [sim]) by reflexivity.
  assert (Hg : Prueba.grupos p = [(sim, 1%Z)])
    by (unfold p, sim, pasos_1_a_5, Prueba._convertir_a_simbolos;
        cbn [Prueba.__init__ Prueba.numeros map];
        destruct (Qgeb x medio); reflexivity).
  assert (HB : Prueba.B p = 1%Z)
    by (unfold p, pasos_1_a_5, Prueba._convertir_a_simbolos;
        cbn [Prueba.__init__ Prueba.numeros map];
        destruct (Qgeb x medio); reflexivity).
  assert (Ht : Prueba.tabla p = Some [(1%Z, 1%Z)])
    by (unfold p, pasos_1_a_5, Prueba._convertir_a_simbolos;
        cbn [Prueba.__init__ Prueba.numeros map];
        destruct (Qgeb x medio); reflexivity).
  assert (Hn : (Prueba.n1 p + Prueba.n2 p)%Z = 1%Z)
    by (unfold p, pasos_1_a_5, Prueba._convertir_a_simbolos;
        cbn [Prueba.__init__ Prueba.numeros map];
        destruct (Qgeb x medio); reflexivity).
  assert (Hn0 : (Prueba.n1 p * Prueba.n2 p)%Z = 0%Z)
    by (unfold p, pasos_1_a_5, Prueba._convertir_a_simbolos;
        cbn [Prueba.__init__ Prueba.numeros map];
        destruct (Qgeb x medio); reflexivity).
  assert (Ha : Prueba.alpha p = alpha) by reflexivity.
  pose proof (pasos_conservan (Prueba.__init__ [x] alpha)) as Hc.
  cbv zeta in Hc. fold p in Hc.
  destruct Hc as (_ & _ & _ & _ & Z2 & Z3 & Z4 & Z5 & Z6).
  cbn [Prueba.__init__ Prueba.sigma2_B Prueba.sigma_B Prueba.z_prueba
       Prueba.z_teorico Prueba.p_valor] in Z2, Z3, Z4, Z5, Z6.
  clearbody p.
  unfold Prueba._calcular_estadisticos. rewrite Hn.
  change (1 =? 0)%Z with false. cbv iota. proyectar. rewrite Hn.
  change (1 ^ 2 * (1 - 1) =? 0)%Z with true. cbv iota.
  eexists.
  split; [unfold error_division; proyectar; rewrite Ha; reflexivity|].
  unfold obtener_simbolos, obtener_grupos_detallados, obtener_tabla_detallada.
  proyectar.
  replace (2 * Prueba.n1 p * Prueba.n2 p)%Z with 0%Z by lia.
  repeat split; try assumption.
  unfold Rdiv. rewrite Rmult_0_l. apply Rplus_0_l.
Qed.

(** ** prueba_rachas_enc_deb.py: the table of lengths *)

Lemma valor_incrementar (k k' : Z) (d : list (Z * Z)) :
  valor k' (Prueba.incrementar k d)
  = (valor k' d + if (k =? k')%Z then 1 else 0)%Z.
Proof.
  induction d as [|[a v] r IH]; cbn [Prueba.incrementar valor].
  - destruct (k =? k')%Z; lia.
  - destruct (a =? k)%Z eqn:E; cbn [valor].
    + apply Z.eqb_eq in E. subst a.
      destruct (k =? k')%Z; lia.
    + rewrite IH. destruct (a =? k')%Z eqn:E'; [|reflexivity].
      apply Z.eqb_eq in E'. subst a. rewrite Z.eqb_sym, E. lia.
Qed.

Lemma claves_incrementar (k j : Z) (d : list (Z * Z)) :
  In j (map fst (Prueba.incrementar k d)) <-> j = k \/ In j (map fst d).
Proof.
  induction d as [|[a v] r IH]; cbn [Prueba.incrementar map fst In].
  - intuition.
  - destruct (a =? k)%Z eqn:E; cbn [map fst In].
    + apply Z.eqb_eq in E. subst a. intuition.
    + rewrite IH. intuition.
Qed.

Lemma NoDup_incrementar (k : Z) (d : list (Z * Z)) :
  NoDup (map fst d) -> NoDup (map fst (Prueba.incrementar k d)).
Proof.
  induction d as [|[a v] r IH]; cbn [Prueba.incrementar map fst]; intros H.
  - constructor; [intros []|constructor].
  - inversion H as [|? ? Hin Hr]; subst.
    destruct (a =? k)%Z eqn:E; cbn [map fst].
    + constructor; assumption.
    + constructor; [|auto].
      rewrite claves_incrementar. intros [->|K]; [|contradiction].
      rewrite Z.eqb_refl in E. discriminate.
Qed.

Lemma sumas_incrementar (k : Z) (d : list (Z * Z)) :
  suma_totales (Prueba.incrementar k d) = (suma_totales d + 1)%Z
  /\ suma_ponderada (Prueba.incrementar k d) = (suma_ponderada d + k)%Z.
Proof.
  induction d as [|[a v] r [IH1 IH2]];
    cbn [Prueba.incrementar suma_totales suma_ponderada fold_right fst snd].
  - lia.
  - destruct (a =? k)%Z eqn:E;
      cbn [suma_totales suma_ponderada fold_right fst snd].
    + apply Z.eqb_eq in E. subst a. lia.
    + fold (suma_totales (Prueba.incrementar k r)).
      fold (suma_ponderada (Prueba.incrementar k r)).
      fold (suma_totales r). fold (suma_ponderada r). lia.
Qed.

(** The dictionary [_contar_longitudes] builds from a list of groups. *)
Lemma contar_longitudes_fold (grupos : list (simbolo * Z)) :
  forall d,
    NoDup (map fst d) ->
    let d' := fold_left (fun d g => Prueba.incrementar (snd g) d) grupos d in
    NoDup (map fst d')
    /\ (forall k, valor k d' = (valor k d + grupos_de_longitud k grupos)%Z)
    /\ suma_totales d'
       = (suma_totales d + Z.of_nat (List.length grupos))%Z
    /\ suma_ponderada d' = (suma_ponderada d + suma_longitudes grupos)%Z.
Proof.
  induction grupos as [|g gs IH]; intros d Hd; cbv zeta; cbn [fold_left].
  - unfold grupos_de_longitud. cbn. repeat split; try assumption; intros; lia.
  - specialize (IH (Prueba.incrementar (snd g) d)
                   (@NoDup_incrementar (snd g) d Hd)).
    cbv zeta in IH. destruct IH as (I1 & I2 & I3 & I4).
    destruct (sumas_incrementar (snd g) d) as [S1 S2].
    split; [assumption|]. split; [|split].
    + intros k. rewrite I2, valor_incrementar.
      unfold grupos_de_longitud. cbn [filter].
      destruct (snd g =? k)%Z; cbn [List.length]; lia.
    + rewrite I3, S1. cbn [List.length]. lia.
    + rewrite I4, S2. cbn [suma_longitudes fold_right].
      fold (suma_longitudes gs). lia.
Qed.

Lemma claves_insertar (kv : Z * Z) (j : Z) (l : list (Z * Z)) :
  In j (map fst (Prueba.insertar kv l)) <-> j = fst kv \/ In j (map fst l).
Proof.
  induction l as [|a r IH]; cbn [Prueba.insertar map In].
  - intuition.
  - destruct (fst kv <=? fst a)%Z; cbn [map In].
    + intuition.
    + rewrite IH. intuition.
Qed.

Lemma creciente_insertar (kv : Z * Z) (l : list (Z * Z)) :
  creciente l -> ~ In (fst kv) (map fst l) ->
  creciente (Prueba.insertar kv l).
Proof.
  induction l as [|a r IH]; intros Hc Hn; cbn [Prueba.insertar].
  - exact I.
  - destruct (fst kv <=? fst a)%Z eqn:E.
    + apply Z.leb_le in E. cbn [creciente]. split; [|assumption].
      assert (fst kv <> fst a) by (intros K; apply Hn; left; auto).
      lia.
    + apply Z.leb_gt in E.
      assert (Hr : creciente r) by (destruct r; [exact I|apply Hc]).
      assert (Hnr : ~ In (fst kv) (map fst r))
        by (intros K; apply Hn; right; exact K).
      specialize (IH Hr Hnr).
      destruct r as [|b r']; cbn [Prueba.insertar] in *.
      * cbn [creciente]. split; [lia|exact I].
      * destruct (fst kv <=? fst b)%Z.
        -- cbn [creciente] in *. split; [lia|exact IH].
        -- cbn [creciente] in *. split; [apply Hc|exact IH].
Qed.

Lemma insertar_medidas (kv : Z * Z) (l : list (Z * Z)) :
  suma_totales (Prueba.insertar kv l) = (snd kv + suma_totales l)%Z
  /\ suma_ponderada (Prueba.insertar kv l)
     = (fst kv * snd kv + suma_ponderada l)%Z
  /\ (forall k, ~ In (fst kv) (map fst l) ->
                valor k (Prueba.insertar kv l)
                = if (fst kv =? k)%Z then snd kv else valor k l).
Proof.
  induction l as [|a r (I1 & I2 & I3)]; cbn [Prueba.insertar].
  - repeat split. intros k _. destruct kv. reflexivity.
  - destruct (fst kv <=? fst a)%Z.
    + repeat split. intros k _. destruct kv. reflexivity.
    + cbn [suma_totales suma_ponderada fold_right].
      fold (suma_totales (Prueba.insertar kv r)).
      fold (suma_ponderada (Prueba.insertar kv r)).
      fold (suma_totales r). fold (suma_ponderada r).
      repeat split; try lia.
      intros k Hn. destruct a as [ka va]. cbn [valor].
      assert (Hk : fst kv <> ka) by (intros K; apply Hn; left; auto).
      rewrite I3 by (intros K; apply Hn; right; exact K).
      destruct (ka =? k)%Z eqn:E1; [|reflexivity].
      apply Z.eqb_eq in E1. subst ka.
      destruct (fst kv =? k)%Z eqn:E2; [|reflexivity].
      apply Z.eqb_eq in E2. contradiction.
Qed.

(** The table [_crear_tabla] builds from a dictionary with distinct keys. *)
Lemma crear_tabla_fold (d : list (Z * Z)) :
  NoDup (map fst d) ->
  let t := fold_right Prueba.insertar [] d in
  creciente t
  /\ (forall j, In j (map fst t) <-> In j (map fst d))
  /\ (forall k, valor k t = valor k d)
  /\ suma_totales t = suma_totales d
  /\ suma_ponderada t = suma_ponderada d.
Proof.
  induction d as [|a r IH]; intros Hd; cbv zeta; cbn [fold_right].
  - repeat split; auto.
  - inversion Hd as [|? ? Hin Hr]; subst.
    specialize (IH Hr). cbv zeta in IH.
    destruct IH as (I1 & I2 & I3 & I4 & I5).
    set (t := fold_right Prueba.insertar [] r) in *.
    assert (Hnt : ~ In (fst a) (map fst t)) by (rewrite I2; exact Hin).
    destruct (insertar_medidas a t) as (M1 & M2 & M3).
    split; [now apply creciente_insertar|].
    split; [intros j; rewrite claves_insertar, I2; cbn [map In]; intuition|].
    split; [|split].
    + intros k. rewrite M3 by assumption. destruct a as [ka va].
      cbn [valor fst snd]. now rewrite I3.
    + rewrite M1, I4. reflexivity.
    + rewrite M2, I5. reflexivity.
Qed.

Lemma incrementar_positivos (k : Z) (d : list (Z * Z)) :
  Forall (fun kv => (1 <= snd kv)%Z) d ->
  Forall (fun kv => (1 <= snd kv)%Z) (Prueba.incrementar k d).
Proof.
  induction d as [|[a v] r IH]; intros H; cbn [Prueba.incrementar].
  - constructor; [cbn; lia|constructor].
  - inversion H as [|? ? Hv Hr]; subst. cbn [snd] in Hv.
    destruct (a =? k)%Z; constructor; cbn [snd]; auto; lia.
Qed.

Lemma contar_longitudes_positivos (grupos : list (simbolo * Z)) :
  forall d,
    Forall (fun kv => (1 <= snd kv)%Z) d ->
    Forall (fun kv => (1 <= snd kv)%Z)
           (fold_left (fun d g => Prueba.incrementar (snd g) d) grupos d).
Proof.
  induction grupos as [|g gs IH]; intros d H; cbn [fold_left];
    [assumption|].
  apply IH. now apply incrementar_positivos.
Qed.

(** A key is present exactly when its value is at least 1, in a dictionary
    of positive values with distinct keys. *)
Lemma clave_sii_valor (k : Z) (l : list (Z * Z)) :
  Forall (fun kv => (1 <= snd kv)%Z) l ->
  NoDup (map fst l) ->
  (In k (map fst l) <-> (1 <= valor k l)%Z).
Proof.
  induction l as [|[a v] r IH]; intros Hf Hn; cbn [map fst In valor].
  - split; [intros []|lia].
  - inversion Hf as [|? ? Hv Hf']; subst.
    inversion Hn as [|? ? Hin Hn']; subst.
    cbn [snd] in Hv. destruct (a =? k)%Z eqn:E.
    + apply Z.eqb_eq in E. subst a. intuition.
    + apply Z.eqb_neq in E. rewrite <- (IH Hf' Hn'). intuition.
Qed.

(** The table of the lengths of a list of groups. *)
Lemma crear_tabla_de_grupos (self : Prueba.objeto) :
  let s := Prueba._crear_tabla (Prueba._contar_longitudes self) in
  exists t,
    obtener_tabla_detallada s = Some t
    /\ creciente t
    /\ (forall k, valor k t = grupos_de_longitud k (Prueba.grupos self))
    /\ (forall k, In k (map fst t)
                  <-> (1 <= grupos_de_longitud k (Prueba.grupos self))%Z)
    /\ suma_totales t = Z.of_nat (List.length (Prueba.grupos self))
    /\ suma_ponderada t = suma_longitudes (Prueba.grupos self)
    /\ obtener_grupos_detallados s = Prueba.grupos self.
Proof.
  cbv zeta. eexists. split; [reflexivity|].
  cbn [Prueba._contar_longitudes Prueba.set_conteo_longitudes
       Prueba.conteo_longitudes].
  set (d := fold_left (fun d g => Prueba.incrementar (snd g) d)
                      (Prueba.grupos self) []).
  destruct (@contar_longitudes_fold (Prueba.grupos self) [] (NoDup_nil _))
    as (D1 & D2 & D3 & D4).
  fold d in D1, D2, D3, D4.
  destruct (@crear_tabla_fold d D1) as (T1 & T2 & T3 & T4 & T5).
  split; [exact T1|].
  split; [intros k; rewrite T3, D2; reflexivity|].
  split.
  - intros k. rewrite T2.
    assert (Hpos : Forall (fun kv => (1 <= snd kv)%Z) d)
      by (apply contar_longitudes_positivos; constructor).
    rewrite (clave_sii_valor k Hpos D1), D2. cbn [valor]. reflexivity.
  - split; [rewrite T4, D3; reflexivity|].
    split; [rewrite T5, D4; reflexivity|reflexivity].
Qed.

(** From any list of groups, [_contar_longitudes] followed by [_crear_tabla]
    leaves a table whose lengths are strictly increasing (so each length has
    one row), whose row for a length holds the number of groups of that
    length (0 rows for a length no group has), whose totals add up to the
    number of groups, and whose lengths weighted by their totals add up to
    the sum of the group lengths. *)
Theorem tabla_de_longitudes (self : Prueba.objeto) :
  let s := Prueba._crear_tabla (Prueba._contar_longitudes self) in
  exists t,
    obtener_tabla_detallada s = Some t
    /\ creciente t
    /\ (forall k, valor k t = grupos_de_longitud k (Prueba.grupos self))
    /\ (forall k, In k (map fst t)
                  <-> (1 <= grupos_de_longitud k (Prueba.grupos self))%Z)
    /\ suma_totales t = Z.of_nat (List.length (Prueba.grupos self))
    /\ suma_ponderada t = suma_longitudes (Prueba.grupos self)
    /\ obtener_grupos_detallados s = Prueba.grupos self.
Proof. exact (crear_tabla_de_grupos self). Qed.

(** The groups [_agrupar_simbolos] leaves for a non-empty symbol sequence
    expand to the sequence, their lengths add up to its length, and they are
    maximal. *)
Lemma agrupar_simbolos_grupos (self : Prueba.objeto) :
  Prueba.simbolos self <> [] ->
  let self' := Prueba._agrupar_simbolos self in
  suma_longitudes (Prueba.grupos self')
  = Z.of_nat (List.length (Prueba.simbolos self))
  /\ expandir (Prueba.grupos self') = Prueba.simbolos self
  /\ maximales (Prueba.grupos self').
Proof.
  intros Hne. destruct (Prueba.simbolos self) as [|s0 resto] eqn:E;
    [congruence|].
  destruct (agrupar_simbolos_cons self E) as (Hg & _ & _).
  cbv zeta. rewrite Hg. split; [|split].
  - rewrite agrupar_bucle_suma. unfold cerrar.
    cbn [Prueba.b_grupos Prueba.b_longitud Prueba.b_simbolo_actual app
         suma_longitudes fold_right snd List.length]. lia.
  - rewrite agrupar_bucle_expandir by (simpl; lia). reflexivity.
  - apply agrupar_bucle_maximales. exact I.
Qed.

(** [_calcular_estadisticos] assigns the six statistics only, whether it
    ends normally or raises. *)
Lemma calcular_conserva (norm : distribucion) (s : Prueba.objeto) :
  let s' := estado_de (Prueba._calcular_estadisticos norm s) in
  Prueba.datos s' = Prueba.datos s
  /\ Prueba.alpha s' = Prueba.alpha s
  /\ Prueba.numeros s' = Prueba.numeros s
  /\ Prueba.simbolos s' = Prueba.simbolos s
  /\ Prueba.n1 s' = Prueba.n1 s /\ Prueba.n2 s' = Prueba.n2 s
  /\ Prueba.grupos s' = Prueba.grupos s /\ Prueba.B s' = Prueba.B s
  /\ Prueba.conteo_longitudes s' = Prueba.conteo_longitudes s
  /\ Prueba.tabla s' = Prueba.tabla s.
Proof.
  cbv zeta. unfold Prueba._calcular_estadisticos.
  destruct (_ =? 0)%Z; [cbn; repeat split|].
  proyectar.
  destruct (_ =? 0)%Z; [cbn; repeat split|].
  proyectar.
  destruct (Rlt_dec _ 0); cbn [estado_de]; proyectar; repeat split.
Qed.

Lemma ejecutar_prueba_estado (norm : distribucion) (self : Prueba.objeto) :
  snd (Prueba.ejecutar norm self)
  = estado_de (Prueba._calcular_estadisticos norm (pasos_1_a_5 self)).
Proof.
  rewrite ejecutar_prueba_pasos.
  destruct (Prueba._calcular_estadisticos norm (pasos_1_a_5 self));
    reflexivity.
Qed.

(** After [ejecutar] on a non-empty sequence, whether it returned a result
    or the error dictionary, the three getters agree with each other: the
    symbols are those of the numbers, the groups expand to the symbols,
    [B] is the number of groups, the counts of the two symbols add up to the
    number of values, and the table is the table of lengths of the groups:
    its totals add up to [B] and its lengths weighted by their totals to the
    number of values. *)
Theorem prueba_estado_tras_ejecutar (norm : distribucion)
        (self : Prueba.objeto) :
  Prueba.numeros self <> [] ->
  let s := snd (Prueba.ejecutar norm self) in
  obtener_simbolos s = simbolos_ge (Prueba.numeros self)
  /\ expandir (obtener_grupos_detallados s) = obtener_simbolos s
  /\ maximales (obtener_grupos_detallados s)
  /\ Prueba.B s = Z.of_nat (List.length (obtener_grupos_detallados s))
  /\ (Prueba.n1 s + Prueba.n2 s)%Z
     = Z.of_nat (List.length (Prueba.numeros self))
  /\ exists t,
       obtener_tabla_detallada s = Some t
       /\ creciente t
       /\ (forall k,
              valor k t = grupos_de_longitud k (obtener_grupos_detallados s))
       /\ suma_totales t = Prueba.B s
       /\ suma_ponderada t = Z.of_nat (List.length (Prueba.numeros self)).
Proof.
  intros Hne. cbv zeta. rewrite ejecutar_prueba_estado.
  pose proof (calcular_conserva norm (pasos_1_a_5 self)) as Hc.
  cbv zeta in Hc.
  destruct Hc as (_ & _ & _ & Csim & Cn1 & Cn2 & Cg & CB & _ & Ct).
  unfold obtener_simbolos, obtener_grupos_detallados, obtener_tabla_detallada.
  rewrite Csim, Cn1, Cn2, Cg, CB, Ct.
  pose proof (pasos_asignan self) as Ha. cbv zeta in Ha.
  destruct Ha as (Hsim & Hn1 & Hn2 & _).
  set (s2 := Prueba._contar_simbolos (Prueba._convertir_a_simbolos self)).
  assert (Hs2 : Prueba.simbolos s2 = simbolos_ge (Prueba.numeros self))
    by reflexivity.
  assert (Hsec : Prueba.simbolos s2 <> []).
  { rewrite Hs2. unfold simbolos_ge.
    destruct (Prueba.numeros self); [congruence|discriminate]. }
  set (s3 := Prueba._agrupar_simbolos s2).
  pose proof (agrupar_simbolos_grupos s2 Hsec) as H4.
  pose proof (agrupar_simbolos_B s2 Hsec) as HB.
  cbv zeta in H4, HB. fold s3 in H4, HB.
  destruct H4 as (G1 & G2 & G4).
  destruct HB as (_ & B2 & _).
  pose proof (crear_tabla_de_grupos s3) as Ht. cbv zeta in Ht.
  destruct Ht as (t & T0 & T1 & T2 & _ & T4 & T5 & T6).
  unfold obtener_tabla_detallada, obtener_grupos_detallados in T0, T6.
  assert (E : pasos_1_a_5 self
              = Prueba._crear_tabla (Prueba._contar_longitudes s3))
    by reflexivity.
  assert (Kg : Prueba.grupos (pasos_1_a_5 self) = Prueba.grupos s3)
    by (rewrite E; exact T6).
  assert (KB : Prueba.B (pasos_1_a_5 self) = Prueba.B s3)
    by (rewrite E; reflexivity).
  rewrite Kg, KB, Hsim, Hn1, Hn2, E, T0.
  pose proof (count_total (simbolos_ge (Prueba.numeros self))) as Hct.
  rewrite numeros_longitud_ge in Hct.
  rewrite Hs2 in G1, G2.
  assert (Hlen : List.length (simbolos_ge (Prueba.numeros self))
                 = List.length (Prueba.numeros self)) by apply length_map.
  repeat split; try assumption.
  exists t. repeat split; try assumption.
  - rewrite T4. symmetry. exact B2.
  - rewrite T5, G1, Hlen. reflexivity.
Qed.

Lemma prueba_estado_tras_ejecutar_witness :
  let s := snd (Prueba.invocar norm_lineal [1#10; 9#10; 9#10] (5/100)%R) in
  obtener_simbolos s = [Menos; Mas; Mas]
  /\ expandir (obtener_grupos_detallados s) = [Menos; Mas; Mas]
  /\ Prueba.B s = Z.of_nat (List.length (obtener_grupos_detallados s)).
Proof.
  cbv zeta.
  pose proof (@prueba_estado_tras_ejecutar norm_lineal
                (Prueba.__init__ [1#10; 9#10; 9#10] (5/100)%R)) as H.
  cbv zeta in H.
  destruct H as (H1 & H2 & _ & H3 & _); [discriminate|].
  unfold Prueba.invocar.
  split; [exact H1|]. split; [rewrite H2; exact H1 | exact H3].
Defined.

(** ** rachas_encima_debajo.py: the preview of the symbol sequence *)

Lemma length_append (a b : string) :
  String.length (a ++ b)%string = (String.length a + String.length b)%nat.
Proof. induction a as [|c a IH]; simpl; [reflexivity|now rewrite IH]. Qed.

Lemma length_concat_simbolos (l : list simbolo) :
  String.length (String.concat "" (map simbolo_str l)) = List.length l.
Proof.
  induction l as [|a l IH]; [reflexivity|].
  destruct l as [|b l].
  - destruct a; reflexivity.
  - change (String.concat "" (map simbolo_str (a :: b :: l)))
      with (simbolo_str a ++ "" ++ String.concat "" (map simbolo_str (b :: l)))%string.
    rewrite !length_append, IH. destruct a; reflexivity.
Qed.

(** The ['secuencia'] entry of a result shows one character per symbol for
    the first 50 symbols, followed by three dots exactly when the sequence
    has more than 50: its length is [min(50, n)], plus 3 when [n > 50], so
    never more than 53. *)
Theorem vista_previa_longitud (secuencia : list simbolo) :
  let n := List.length secuencia in
  String.length (Rachas.vista_previa secuencia)
  = (Nat.min 50 n + if (50 <? n)%nat then 3 else 0)%nat
  /\ (String.length (Rachas.vista_previa secuencia) <= 53)%nat.
Proof.
  cbv zeta. unfold Rachas.vista_previa.
  rewrite length_append, length_concat_simbolos, length_firstn.
  destruct (50 <? Z.of_nat (List.length secuencia))%Z eqn:E.
  - apply Z.ltb_lt in E.
    assert (E' : (50 <? List.length secuencia)%nat = true)
      by (apply Nat.ltb_lt; lia).
    rewrite E'. cbn [String.length]. repeat split; lia.
  - apply Z.ltb_ge in E.
    assert (E' : (50 <? List.length secuencia)%nat = false)
      by (apply Nat.ltb_ge; lia).
    rewrite E'. cbn [String.length]. repeat split; lia.
Qed.

Lemma prueba_error_sii_witness :
  (exists e s,
      Prueba.ejecutar norm_lineal (Prueba.__init__ [1#10] (5/100)%R)
      = (Prueba.Dict_error e, s))
  /\ (exists r s,
         Prueba.ejecutar norm_lineal
           (Prueba.__init__ [1#10; 9#10] (5/100)%R)
         = (Prueba.Dict_resultado r, s)).
Proof.
  split.
  - apply (proj1 (@prueba_error_sii norm_lineal
                    (Prueba.__init__ [1#10] (5/100)%R))).
    simpl. lia.
  - apply (proj1 (proj2 (@prueba_error_sii norm_lineal
                           (Prueba.__init__ [1#10; 9#10] (5/100)%R)))).
    simpl. lia.
Defined.

(** ** The two comparisons with the threshold *)

Lemma Qeq_bool_medio (x : Q) :
  Qeq_bool x medio = true ->
  Qgtb x medio = false /\ Qgeb x medio = true.
Proof.
  intros H. apply Qeq_bool_iff in H. split.
  - destruct (Qgtb x medio) eqn:E; [|reflexivity].
    apply Qgtb_lt in E. rewrite H in E.
    exfalso. exact (Qlt_irrefl _ E).
  - apply Qgeb_le. rewrite H. apply Qle_refl.
Qed.

(** The counts of the two encodings differ by the number of values equal to
    0.5. *)
Lemma simbolos_cuentas (datos : list Q) :
  count Mas (simbolos_ge datos)
  = (count Mas (simbolos_gt datos) + iguales_a_medio datos)%Z
  /\ count Menos (simbolos_gt datos)
     = (count Menos (simbolos_ge datos) + iguales_a_medio datos)%Z
  /\ (iguales_a_medio datos = 0%Z -> simbolos_gt datos = simbolos_ge datos).
Proof.
  unfold iguales_a_medio.
  induction datos as [|x l (IH1 & IH2 & IH3)];
    [repeat split|].
  cbn [simbolos_ge simbolos_gt map count filter].
  fold (simbolos_ge l). fold (simbolos_gt l).
  destruct (Qeq_bool x medio) eqn:E.
  - destruct (Qeq_bool_medio x E) as [-> ->].
    cbn [simbolo_eqb List.length]. rewrite Nat2Z.inj_succ.
    repeat split; try lia.
  - assert (Hx : ~ x == medio)
      by (intros K; apply Qeq_bool_iff in K; congruence).
    rewrite (Qgtb_Qgeb Hx).
    destruct (Qgeb x medio); cbn [simbolo_eqb];
      (split; [lia|split; [lia|]]); intros K; now rewrite IH3.
Qed.

(** The symbols the two encodings give to one value. *)
Lemma simbolo_de_un_valor (x : Q) :
  let a := if Qgtb x medio then Mas else Menos in
  let b := if Qgeb x medio then Mas else Menos in
  (a <> b <-> x == medio) /\ (x == medio -> a = Menos /\ b = Mas).
Proof.
  cbv zeta. destruct (Qeq_bool x medio) eqn:E.
  - destruct (Qeq_bool_medio x E) as [-> ->].
    apply Qeq_bool_iff in E.
    split; [split; [intros _; exact E | intros _; discriminate]|auto].
  - assert (Hx : ~ x == medio)
      by (intros K; apply Qeq_bool_iff in K; congruence).
    rewrite (Qgtb_Qgeb Hx).
    split; [split; [intros K; now contradiction K | intros K; contradiction]
           | intros K; contradiction].
Qed.

(** The symbol sequences the two classes build from the same data have the
    length of the data and differ exactly at the positions of the values
    equal to 0.5, where rachas_encima_debajo.py ([>]) has ['-'] and
    prueba_rachas_enc_deb.py ([>=]) has ['+']; at every other position they
    hold the same symbol.  So the ['+'] count of the latter is that of the
    former plus the number of values equal to 0.5, the ['-'] count of the
    former is that of the latter plus the same number, and with no such
    value the two sequences are equal. *)
Theorem simbolos_ge_gt (datos : list Q) (alpha : R) (self : Rachas.objeto) :
  Rachas.__init__ datos alpha = inr self ->
  let sec := Rachas.secuencia self in
  let sim :=
    Prueba.simbolos
      (Prueba._convertir_a_simbolos (Prueba.__init__ datos alpha)) in
  List.length sec = List.length datos
  /\ List.length sim = List.length datos
  /\ (forall (i : nat) (x : Q),
         nth_error datos i = Some x ->
         exists a b,
           nth_error sec i = Some a /\ nth_error sim i = Some b
           /\ (a <> b <-> x == medio)
           /\ (x == medio -> a = Menos /\ b = Mas))
  /\ count Mas sim = (count Mas sec + iguales_a_medio datos)%Z
  /\ count Menos sec = (count Menos sim + iguales_a_medio datos)%Z
  /\ (iguales_a_medio datos = 0%Z -> sec = sim).
Proof.
  intros H. cbv zeta.
  destruct datos as [|x0 l0]; [discriminate|].
  rewrite init_rachas_no_vacio in H by discriminate. injection H as <-.
  set (datos := x0 :: l0).
  change (Rachas.secuencia (objeto_rachas datos alpha))
    with (simbolos_gt datos).
  change (Prueba.simbolos
            (Prueba._convertir_a_simbolos (Prueba.__init__ datos alpha)))
    with (simbolos_ge datos).
  destruct (simbolos_cuentas datos) as (C1 & C2 & C3).
  split; [apply length_map|]. split; [apply length_map|].
  split; [|auto].
  intros i x Hx.
  exists (if Qgtb x medio then Mas else Menos),
         (if Qgeb x medio then Mas else Menos).
  unfold simbolos_gt, simbolos_ge. rewrite !nth_error_map, Hx.
  split; [reflexivity|]. split; [reflexivity|].
  apply (simbolo_de_un_valor x).
Qed.

(** The data 0.1, 0.5, 0.9: the two sequences differ at position 1, where
    the value is 0.5. *)
Lemma simbolos_ge_gt_witness :
  exists a b,
    nth_error (simbolos_gt [1#10; 1#2; 9#10]) 1 = Some a
    /\ nth_error (simbolos_ge [1#10; 1#2; 9#10]) 1 = Some b
    /\ a = Menos /\ b = Mas.
Proof.
  pose proof (@simbolos_ge_gt [1#10; 1#2; 9#10] (5/100)%R
                (objeto_rachas [1#10; 1#2; 9#10] (5/100)%R) eq_refl) as H.
  cbv zeta in H. destruct H as (_ & _ & H & _).
  destruct (H 1%nat (1#2) eq_refl) as (a & b & Ha & Hb & _ & Hab).
  exists a, b. split; [exact Ha|]. split; [exact Hb|].
  apply Hab. reflexivity.
Defined.

(** ** Bounds on the number of runs *)

(** Every change of symbol has the symbol [c] on one of its two sides, and
    a position is on a side of at most two changes. *)
Lemma cambios_count (c : simbolo) (l : list simbolo) :
  (cambios l + match l with
               | a :: _ => if simbolo_eqb a c then 1 else 0
               | [] => 0
               end <= 2 * count c l)%Z.
Proof.
  induction l as [|a l IH]; [rewrite cambios_nil; simpl; lia|].
  destruct l as [|b l].
  - rewrite cambios_uno. cbn [count].
    destruct (simbolo_eqb a c); lia.
  - rewrite cambios_cons. cbn [count] in *.
    destruct a, b, c; cbn [simbolo_eqb] in *; lia.
Qed.

(** A sequence without change of symbol holds a single symbol. *)
Lemma cambios_cero (l : list simbolo) :
  cambios l = 0%Z -> count Mas l = 0%Z \/ count Menos l = 0%Z.
Proof.
  induction l as [|a l IH]; [now left|].
  destruct l as [|b l].
  - intros _. destruct a; cbn; auto.
  - rewrite cambios_cons.
    pose proof (cambios_cotas (b :: l)) as Hc.
    intros H.
    assert (Hb : simbolo_eqb b a = true)
      by (destruct (simbolo_eqb b a); [reflexivity|lia]).
    rewrite Hb in H. apply simbolo_eqb_eq in Hb. subst b.
    destruct (IH ltac:(lia)) as [K|K]; cbn [count] in *;
      destruct a; cbn [simbolo_eqb] in *;
      pose proof (count_no_negativo Mas l);
      pose proof (count_no_negativo Menos l); (left; lia) || (right; lia).
Qed.

(** The number of runs of a symbol sequence is at most twice the count of
    either symbol plus 1, and at least 2 when both symbols occur. *)
Lemma rachas_cotas (l : list simbolo) :
  (1 + cambios l <= 2 * Z.min (count Mas l) (count Menos l) + 1)%Z
  /\ ((1 <= count Mas l)%Z -> (1 <= count Menos l)%Z ->
      (2 <= 1 + cambios l)%Z).
Proof.
  split.
  - pose proof (cambios_count Mas l) as H1.
    pose proof (cambios_count Menos l) as H2.
    assert (forall c, 0 <= match l with
                           | a :: _ => if simbolo_eqb a c then 1 else 0
                           | [] => 0
                           end)%Z
      by (intros c; destruct l as [|a ?]; [lia|destruct (simbolo_eqb a c); lia]).
    pose proof (H Mas). pose proof (H Menos). lia.
  - intros H1 H2. pose proof (cambios_cotas l) as Hc.
    destruct (Z.eq_dec (cambios l) 0) as [E|E]; [|lia].
    destruct (cambios_cero l E); lia.
Qed.

Lemma mu_cotas (n1 n2 : Z) :
  (1 <= n1)%Z -> (1 <= n2)%Z ->
  (2 <= mu_formula n1 n2 <= (IZR n1 + IZR n2) / 2 + 1)%R.
Proof.
  intros H1 H2. unfold mu_formula.
  apply IZR_le in H1, H2.
  set (a := IZR n1) in *. set (b := IZR n2) in *.
  assert (Hs : (0 < a + b)%R) by lra.
  assert (Hq : (1 <= 2 * a * b / (a + b) <= (a + b) / 2)%R).
  { assert (Hp : (0 <= (a - 1) * (b - 1))%R) by (apply Rmult_le_pos; lra).
    pose proof (Rle_0_sqr (a - b)) as Hsq. unfold Rsqr in Hsq.
    split.
    - apply Rmult_le_reg_r with (a + b)%R; [assumption|].
      unfold Rdiv. rewrite Rmult_assoc, Rinv_l by lra. nra.
    - apply Rmult_le_reg_r with (a + b)%R; [assumption|].
      unfold Rdiv at 1. rewrite Rmult_assoc, Rinv_l by lra. nra. }
  lra.
Qed.

(** In every result dictionary an invocation of rachas_encima_debajo.py
    returns: the two counts are at least 1 and add up to [n_total], which is
    at least 3; the observed runs are at least 2, at most twice the smaller
    count plus 1, and at most [n_total]; the expected runs lie between 2 and
    [n_total / 2 + 1]; the standard deviation is positive and the statistic
    is not negative. *)
Theorem rachas_resultado_cotas (norm : distribucion) (datos : list Q)
        (alpha : R) (r : Rachas.resultado) :
  Rachas.invocar norm datos alpha = inr (Rachas.Dict_resultado r) ->
  (1 <= Rachas.r_n1 r)%Z /\ (1 <= Rachas.r_n2 r)%Z
  /\ (Rachas.r_n1 r + Rachas.r_n2 r)%Z = Rachas.r_n_total r
  /\ Rachas.r_n_total r = Z.of_nat (List.length datos)
  /\ (3 <= Rachas.r_n_total r)%Z
  /\ (2 <= Rachas.rachas_observadas r)%Z
  /\ (Rachas.rachas_observadas r
      <= 2 * Z.min (Rachas.r_n1 r) (Rachas.r_n2 r) + 1)%Z
  /\ (Rachas.rachas_observadas r <= Rachas.r_n_total r)%Z
  /\ (2 <= Rachas.rachas_esperadas r
      <= IZR (Rachas.r_n_total r) / 2 + 1)%R
  /\ (0 < Rachas.desviacion_estandar r)%R
  /\ (0 <= Rachas.estadistico r)%R.
Proof.
  intros H.
  pose proof (invocar_rachas_casos norm datos alpha) as Hc. cbv zeta in Hc.
  destruct Hc as [(_ & K) | [(_ & _ & K) | [(_ & _ & K)
                                           | (C1 & C2 & C3 & _)]]];
    try (rewrite K in H; discriminate).
  assert (Hne : datos <> []) by (apply simbolos_gt_no_vacio; lia).
  rewrite (invocar_rachas_no_vacio norm alpha Hne) in H.
  pose proof (@ejecutar_rachas_resultado norm (objeto_rachas datos alpha)
                eq_refl C1 C2 C3) as He.
  cbv zeta in He. rewrite He in H. injection H as <-.
  cbn [Rachas.r_n1 Rachas.r_n2 Rachas.r_n_total Rachas.rachas_observadas
       Rachas.rachas_esperadas Rachas.desviacion_estandar Rachas.estadistico
       objeto_rachas Rachas.n1 Rachas.n2 Rachas.n_total Rachas.secuencia].
  pose proof (count_total (simbolos_gt datos)) as Ht.
  assert (Hl : List.length (simbolos_gt datos) = List.length datos)
    by apply length_map.
  rewrite Hl in Ht.
  assert (Hsec : simbolos_gt datos <> []).
  { unfold simbolos_gt. destruct datos; [congruence|discriminate]. }
  destruct (contar_rachas_cotas Hsec) as [HR Hb]. rewrite Hl in Hb.
  destruct (rachas_cotas (simbolos_gt datos)) as [R1 R2].
  specialize (R2 C1 C2).
  pose proof (mu_cotas C1 C2) as Hmu.
  rewrite <- Ht, plus_IZR.
  repeat split; try lia; try apply Hmu.
  - apply sqrt_lt_R0. now apply sigma2_pos.
  - apply z_formula_no_negativo.
Qed.

Lemma rachas_resultado_cotas_witness :
  exists r,
    Rachas.invocar norm_lineal [1#10; 9#10; 1#10] (5/100)%R
    = inr (Rachas.Dict_resultado r)
    /\ (2 <= Rachas.rachas_observadas r)%Z
    /\ (0 < Rachas.desviacion_estandar r)%R.
Proof.
  destruct (@invocar_rachas_resultado norm_lineal [1#10; 9#10; 1#10]
              (5/100)%R) as (r & Hi & _); [vm_compute; discriminate ..|].
  exists r. split; [exact Hi|].
  pose proof (@rachas_resultado_cotas norm_lineal [1#10; 9#10; 1#10]
                (5/100)%R r Hi) as (_ & _ & _ & _ & _ & H2 & _ & _ & _ & Hs & _).
  split; assumption.
Defined.

(** ** The sequence read backwards *)

Lemma count_app (c : simbolo) (l1 l2 : list simbolo) :
  count c (l1 ++ l2) = (count c l1 + count c l2)%Z.
Proof.
  induction l1 as [|a l1 IH]; cbn [app count]; [reflexivity|].
  rewrite IH. lia.
Qed.

Lemma count_rev (c : simbolo) (l : list simbolo) :
  count c (rev l) = count c l.
Proof.
  induction l as [|a l IH]; [reflexivity|].
  cbn [rev]. rewrite count_app, IH. cbn [count]. lia.
Qed.

(** Appending a symbol adds a change exactly when it differs from the last
    one. *)
Lemma cambios_snoc (l : list simbolo) (a x : simbolo) :
  cambios ((a :: l) ++ [x])
  = (cambios (a :: l)
     + if simbolo_eqb x (last (a :: l) a) then 0 else 1)%Z.
Proof.
  revert a. induction l as [|b l IH]; intros a.
  - cbn [app last]. rewrite cambios_cons, !cambios_uno. lia.
  - change ((a :: b :: l) ++ [x]) with (a :: ((b :: l) ++ [x])).
    cbn [app]. rewrite !cambios_cons.
    change (b :: l ++ [x]) with ((b :: l) ++ [x]). rewrite IH.
    replace (last (a :: b :: l) a) with (last (b :: l) b).
    + lia.
    + clear. revert b. induction l as [|c l IHl]; intros b; [reflexivity|].
      change (last (b :: c :: l) b) with (last (c :: l) b).
      change (last (a :: b :: c :: l) a) with (last (c :: l) a).
      clear IHl. revert c. induction l as [|d l IHl]; intros c; [reflexivity|].
      change (last (c :: d :: l) b) with (last (d :: l) b).
      change (last (c :: d :: l) a) with (last (d :: l) a).
      apply IHl.
Qed.

Lemma last_rev_cons (l : list simbolo) (b d : simbolo) :
  last (rev (b :: l)) d = b.
Proof. cbn [rev]. apply last_last. Qed.

Lemma cambios_rev (l : list simbolo) : cambios (rev l) = cambios l.
Proof.
  induction l as [|a l IH]; [reflexivity|].
  destruct l as [|b l]; [reflexivity|].
  change (rev (a :: b :: l)) with (rev (b :: l) ++ [a]).
  destruct (rev (b :: l)) as [|c m] eqn:E.
  - apply (f_equal (@List.length _)) in E. rewrite length_rev in E.
    discriminate.
  - rewrite cambios_snoc, IH, cambios_cons, <- E.
    rewrite (last_rev_cons l b c), simbolo_eqb_sym. lia.
Qed.

Lemma simbolos_rev (datos : list Q) :
  simbolos_gt (rev datos) = rev (simbolos_gt datos)
  /\ simbolos_ge (rev datos) = rev (simbolos_ge datos).
Proof. unfold simbolos_gt, simbolos_ge. now rewrite !map_rev. Qed.

Lemma resultado_prueba_rev (norm : distribucion) (datos : list Q) (alpha : R) :
  resultado_prueba norm (rev datos) alpha = resultado_prueba norm datos alpha.
Proof.
  unfold resultado_prueba.
  rewrite (proj2 (simbolos_rev datos)), !count_rev, cambios_rev, length_rev.
  reflexivity.
Qed.

(** Reading the sequence backwards changes nothing in what the test
    reports.  prueba_rachas_enc_deb.py returns the same dictionary for the
    reversed sequence.  rachas_encima_debajo.py returns the same kind of
    outcome, the same error if it is an error, and a result with the same
    counts, runs, expected runs, standard deviation, statistic, critical
    value, p-value and decision if it is a result (only the preview of the
    symbols differs). *)
Theorem secuencia_invertida (norm : distribucion) (datos : list Q)
        (alpha : R) :
  fst (Prueba.invocar norm (rev datos) alpha)
  = fst (Prueba.invocar norm datos alpha)
  /\ match Rachas.invocar norm datos alpha,
           Rachas.invocar norm (rev datos) alpha with
     | inl e, inl e' => e = e'
     | inr (Rachas.Dict_error e), inr (Rachas.Dict_error e') => e = e'
     | inr (Rachas.Dict_resultado r), inr (Rachas.Dict_resultado r') =>
         Rachas.r_n_total r' = Rachas.r_n_total r
         /\ Rachas.r_n1 r' = Rachas.r_n1 r
         /\ Rachas.r_n2 r' = Rachas.r_n2 r
         /\ Rachas.rachas_observadas r' = Rachas.rachas_observadas r
         /\ Rachas.rachas_esperadas r' = Rachas.rachas_esperadas r
         /\ Rachas.desviacion_estandar r' = Rachas.desviacion_estandar r
         /\ Rachas.estadistico r' = Rachas.estadistico r
         /\ Rachas.valor_critico r' = Rachas.valor_critico r
         /\ Rachas.p_valor r' = Rachas.p_valor r
         /\ Rachas.rechaza_h0 r' = Rachas.rechaza_h0 r
     | _, _ => False
     end.
Proof.
  split.
  - unfold Prueba.invocar.
    destruct (le_lt_dec 2 (List.length datos)) as [Hl|Hl].
    + destruct (@ejecutar_prueba_resultado norm (Prueba.__init__ datos alpha))
        as (s1 & E1 & _); [exact Hl|].
      destruct (@ejecutar_prueba_resultado norm
                  (Prueba.__init__ (rev datos) alpha)) as (s2 & E2 & _);
        [cbn [Prueba.__init__ Prueba.numeros]; rewrite length_rev; exact Hl|].
      rewrite E1, E2. cbn [fst Prueba.__init__ Prueba.numeros Prueba.alpha].
      now rewrite resultado_prueba_rev.
    + destruct (@ejecutar_prueba_error norm (Prueba.__init__ datos alpha))
        as (s1 & E1 & _); [cbn [Prueba.__init__ Prueba.numeros]; lia|].
      destruct (@ejecutar_prueba_error norm
                  (Prueba.__init__ (rev datos) alpha)) as (s2 & E2 & _);
        [cbn [Prueba.__init__ Prueba.numeros]; rewrite length_rev; lia|].
      rewrite E1, E2. reflexivity.
  - destruct (simbolos_rev datos) as [Hgt _].
    assert (Hn1 : count Mas (simbolos_gt (rev datos))
                  = count Mas (simbolos_gt datos))
      by (rewrite Hgt; apply count_rev).
    assert (Hn2 : count Menos (simbolos_gt (rev datos))
                  = count Menos (simbolos_gt datos))
      by (rewrite Hgt; apply count_rev).
    assert (Hc : cambios (simbolos_gt (rev datos))
                 = cambios (simbolos_gt datos))
      by (rewrite Hgt; apply cambios_rev).
    assert (Hrev : datos <> [] -> rev datos <> []).
    { intros Hne E. apply Hne. apply (f_equal (@rev Q)) in E.
      now rewrite rev_involutive in E. }
    pose proof (invocar_rachas_casos norm datos alpha) as H. cbv zeta in H.
    destruct H as [(D & K) | [(D & C & K) | [(C1 & C2 & K)
                                            | (C1 & C2 & C3 & _)]]].
    + subst datos. reflexivity.
    + rewrite K, (invocar_rachas_no_vacio norm alpha (Hrev D)).
      rewrite ejecutar_rachas_sin_rachas; [reflexivity|].
      cbn [objeto_rachas Rachas.n1 Rachas.n2]. now rewrite Hn1, Hn2.
    + assert (D : datos <> []) by (apply simbolos_gt_no_vacio; lia).
      rewrite K, (invocar_rachas_no_vacio norm alpha (Hrev D)).
      rewrite ejecutar_rachas_desviacion_cero; [reflexivity|reflexivity|..];
        cbn [objeto_rachas Rachas.n1 Rachas.n2]; congruence.
    + destruct (@invocar_rachas_resultado norm datos alpha C1 C2 C3)
        as (r & Hr & A1 & A2 & A3 & A4 & A5 & A6 & A7 & A8 & A9 & _).
      rewrite <- Hn1 in C1. rewrite <- Hn2 in C2.
      rewrite <- Hn1, <- Hn2 in C3.
      destruct (@invocar_rachas_resultado norm (rev datos) alpha C1 C2 C3)
        as (r' & Hr' & B1 & B2 & B3 & B4 & B5 & B6 & B7 & B8 & B9 & _).
      rewrite Hr, Hr'. rewrite Hn1, Hn2, Hc in *.
      assert (Hnt : Rachas.r_n_total r' = Rachas.r_n_total r).
      { assert (D : datos <> []) by (apply simbolos_gt_no_vacio; lia).
        rewrite (invocar_rachas_no_vacio norm alpha D) in Hr.
        rewrite (invocar_rachas_no_vacio norm alpha (Hrev D)) in Hr'.
        pose proof (@ejecutar_rachas_resultado norm
                      (objeto_rachas datos alpha) eq_refl) as E1.
        pose proof (@ejecutar_rachas_resultado norm
                      (objeto_rachas (rev datos) alpha) eq_refl) as E2.
        cbv zeta in E1, E2.
        cbn [objeto_rachas Rachas.n1 Rachas.n2] in E1, E2.
        rewrite Hn1, Hn2 in E2.
        rewrite E1 in Hr by assumption. rewrite E2 in Hr' by assumption.
        injection Hr as <-. injection Hr' as <-.
        cbn [Rachas.r_n_total objeto_rachas Rachas.n_total].
        now rewrite length_rev. }
      assert (Ez : Rachas.estadistico r' = Rachas.estadistico r)
        by congruence.
      assert (Ev : Rachas.valor_critico r' = Rachas.valor_critico r)
        by congruence.
      repeat split; try congruence.
      rewrite A9, B9, Ez, Ev. reflexivity.
Qed.
(** ** prueba_rachas_enc_deb.py: what a result holds *)

(** A result dictionary of [ejecutar] is the one the numbers and alpha
    determine. *)
Lemma ejecutar_prueba_es_resultado (norm : distribucion)
      (self : Prueba.objeto) (r : Prueba.resultado) (s : Prueba.objeto) :
  Prueba.ejecutar norm self = (Prueba.Dict_resultado r, s) ->
  r = resultado_prueba norm (Prueba.numeros self) (Prueba.alpha self)
  /\ (2 <= List.length (Prueba.numeros self))%nat.
Proof.
  intros H.
  destruct (le_lt_dec 2 (List.length (Prueba.numeros self))) as [Hl|Hl].
  - destruct (@ejecutar_prueba_resultado norm self Hl) as (s1 & E1 & _).
    rewrite E1 in H. injection H as <- _. split; [reflexivity|assumption].
  - assert (Hl' : (List.length (Prueba.numeros self) <= 1)%nat) by lia.
    destruct (@ejecutar_prueba_error norm self Hl') as (s1 & E1 & _).
    rewrite E1 in H. discriminate.
Qed.

(** In every result dictionary [ejecutar] of prueba_rachas_enc_deb.py
    returns, from any object: the two counts are not negative and add up to
    [total_datos], which is at least 2; [B] is at least 1, at most twice the
    smaller count plus 1 and at most [total_datos]; the standard deviation
    and the statistic are not negative; and the statistic is 0 when the
    standard deviation is. *)
Theorem prueba_resultado_cotas (norm : distribucion) (self : Prueba.objeto)
        (r : Prueba.resultado) (s : Prueba.objeto) :
  Prueba.ejecutar norm self = (Prueba.Dict_resultado r, s) ->
  (0 <= Prueba.r_n1 r)%Z /\ (0 <= Prueba.r_n2 r)%Z
  /\ (Prueba.r_n1 r + Prueba.r_n2 r)%Z = Prueba.total_datos r
  /\ Prueba.total_datos r = Z.of_nat (List.length (Prueba.numeros self))
  /\ (2 <= Prueba.total_datos r)%Z
  /\ (1 <= Prueba.r_B r)%Z
  /\ (Prueba.r_B r <= 2 * Z.min (Prueba.r_n1 r) (Prueba.r_n2 r) + 1)%Z
  /\ (Prueba.r_B r <= Prueba.total_datos r)%Z
  /\ (0 <= Prueba.r_sigma_B r)%R
  /\ (0 <= Prueba.estadistico r)%R
  /\ (Prueba.r_sigma_B r = 0%R -> Prueba.estadistico r = 0%R)
  /\ Prueba.r_alpha r = Prueba.alpha self.
Proof.
  intros H.
  destruct (le_lt_dec 2 (List.length (Prueba.numeros self))) as [Hl|Hl].
  - destruct (@ejecutar_prueba_resultado norm self Hl) as (s1 & E1 & _).
    rewrite E1 in H. injection H as <- _.
    unfold resultado_prueba.
    cbn [Prueba.r_n1 Prueba.r_n2 Prueba.total_datos Prueba.r_B
         Prueba.r_sigma_B Prueba.estadistico Prueba.r_alpha].
    set (sim := simbolos_ge (Prueba.numeros self)).
    pose proof (count_total sim) as Ht.
    assert (Hlen : List.length sim = List.length (Prueba.numeros self))
      by apply length_map.
    rewrite Hlen in Ht.
    pose proof (cambios_cotas sim) as Hc. rewrite Hlen in Hc.
    destruct (rachas_cotas sim) as [R1 _].
    pose proof (count_no_negativo Mas sim).
    pose proof (count_no_negativo Menos sim).
    repeat split; try lia; try apply sqrt_pos.
    + unfold z_guardado. destruct (Req_dec_T _ 0%R); [lra|apply Rabs_pos].
    + intros K. now apply z_guardado_cero.
  - assert (Hl' : (List.length (Prueba.numeros self) <= 1)%nat) by lia.
    destruct (@ejecutar_prueba_error norm self Hl') as (s1 & E1 & _).
    rewrite E1 in H. discriminate.
Qed.

Lemma prueba_resultado_cotas_witness :
  exists r s,
    Prueba.ejecutar norm_lineal (Prueba.__init__ [1#10; 9#10] (5/100)%R)
    = (Prueba.Dict_resultado r, s)
    /\ (1 <= Prueba.r_B r)%Z
    /\ (0 <= Prueba.estadistico r)%R.
Proof.
  destruct (@ejecutar_prueba_resultado norm_lineal
              (Prueba.__init__ [1#10; 9#10] (5/100)%R)) as (s & E & _);
    [simpl; lia|].
  eexists. exists s. split; [exact E|].
  pose proof (@prueba_resultado_cotas norm_lineal _ _ _ E)
    as (_ & _ & _ & _ & _ & HB & _ & _ & _ & Hz & _).
  split; assumption.
Defined.

(** ** main.py: the summary of the runs test *)

Lemma mostrar_resultado_error (t0 : list Main.texto) (nombre : string)
      (e : Rachas.error) :
  Main.mostrar_resultado t0 nombre (Rachas.Dict_error e)
  = (t0 ++ [Main.Encabezado nombre; Main.Subrayado (String.length nombre)],
     Some Main.KeyError_rechaza_h0).
Proof.
  unfold Main.mostrar_resultado.
  cbn [Main.real_de Main.rechaza_h0_de].
  now rewrite <- app_assoc.
Qed.

Lemma mostrar_resultado_resultado (t0 : list Main.texto) (nombre : string)
      (r : Rachas.resultado) :
  Main.mostrar_resultado t0 nombre (Rachas.Dict_resultado r)
  = (t0 ++ [Main.Encabezado nombre;
            Main.Subrayado (String.length nombre);
            Main.Linea_estadistico (Rachas.estadistico r);
            Main.Linea_valor_critico (Rachas.valor_critico r);
            Main.Linea_p_valor (Rachas.p_valor r);
            if Rachas.rechaza_h0 r then Main.Linea_rechaza
            else Main.Linea_no_rechaza;
            Main.Linea_vacia],
     None).
Proof.
  unfold Main.mostrar_resultado.
  change (Main.real_de "estadistico" (Rachas.Dict_resultado r))
    with (Some (Rachas.estadistico r)).
  change (Main.real_de "valor_critico" (Rachas.Dict_resultado r))
    with (Some (Rachas.valor_critico r)).
  change (Main.real_de "p_valor" (Rachas.Dict_resultado r))
    with (Some (Rachas.p_valor r)).
  cbn [Main.rechaza_h0_de].
  destruct (Rachas.rechaza_h0 r); rewrite <- !app_assoc; reflexivity.
Qed.

(** The summary main.py writes for the runs test.  When
    [RachasEncimaDebajo(datos, alpha).ejecutar()] returned an error
    dictionary, that is when the data has a single symbol class or one value
    of each, [mostrar_resultado] writes the heading and its underline and
    then raises [KeyError('rechaza_h0')]: the message of the dictionary is
    never written.  Otherwise it raises nothing and writes, after the
    heading, the statistic, the critical value, the p-value, the decision
    line that matches [rechaza_h0], and an empty line.  What the widget held
    before stays in front. *)
Theorem resumen_de_rachas (norm : distribucion) (datos : list Q) (alpha : R)
        (t0 : list Main.texto) (nombre : string) (d : Rachas.salida) :
  Rachas.invocar norm datos alpha = inr d ->
  let n1 := count Mas (simbolos_gt datos) in
  let n2 := count Menos (simbolos_gt datos) in
  let salida := Main.mostrar_resultado t0 nombre d in
  (snd salida = Some Main.KeyError_rechaza_h0
   <-> (n1 = 0 \/ n2 = 0 \/ (n1 = 1 /\ n2 = 1))%Z)
  /\ (snd salida = Some Main.KeyError_rechaza_h0 ->
      fst salida
      = t0 ++ [Main.Encabezado nombre;
               Main.Subrayado (String.length nombre)])
  /\ (snd salida = None ->
      exists r,
        d = Rachas.Dict_resultado r
        /\ fst salida
           = t0 ++ [Main.Encabezado nombre;
                    Main.Subrayado (String.length nombre);
                    Main.Linea_estadistico (Rachas.estadistico r);
                    Main.Linea_valor_critico (Rachas.valor_critico r);
                    Main.Linea_p_valor (Rachas.p_valor r);
                    if Rachas.rechaza_h0 r then Main.Linea_rechaza
                    else Main.Linea_no_rechaza;
                    Main.Linea_vacia]).
Proof.
  intros H. cbv zeta.
  pose proof (invocar_rachas_casos norm datos alpha) as Hc. cbv zeta in Hc.
  destruct Hc as [(_ & K) | [(_ & C & K) | [(C1 & C2 & K)
                                           | (C1 & C2 & C3 & r & K)]]];
    rewrite K in H; try discriminate; injection H as <-.
  - rewrite mostrar_resultado_error. cbn [fst snd].
    split; [|split; [reflexivity | discriminate]].
    split; [intros _; tauto | reflexivity].
  - rewrite mostrar_resultado_error. cbn [fst snd].
    split; [|split; [reflexivity | discriminate]].
    split; [intros _; tauto | reflexivity].
  - rewrite mostrar_resultado_resultado. cbn [fst snd].
    split; [|split; [discriminate | intros _; exists r; split; reflexivity]].
    split; [discriminate | lia].
Qed.

Lemma resumen_de_rachas_witness :
  snd (Main.mostrar_resultado [] "RACHAS ENCIMA/DEBAJO"
         (Rachas.Dict_error Rachas.Error_sin_rachas))
  = Some Main.KeyError_rechaza_h0.
Proof.
  assert (H : Rachas.invocar norm_lineal [1#10; 1#10] (5/100)%R
              = inr (Rachas.Dict_error Rachas.Error_sin_rachas)).
  { rewrite invocar_rachas_no_vacio by discriminate. apply f_equal.
    apply ejecutar_rachas_sin_rachas. left. reflexivity. }
  apply (proj1 (@resumen_de_rachas norm_lineal [1#10; 1#10] (5/100)%R []
                  "RACHAS ENCIMA/DEBAJO"
                  (Rachas.Dict_error Rachas.Error_sin_rachas) H)).
  left. reflexivity.
Defined.

(** ** prueba_rachas_enc_deb.py: when the standard deviation is 0 *)

(** In a result dictionary of prueba_rachas_enc_deb.py the standard
    deviation is 0, so that the statistic is set to 0 by the guard instead
    of being computed, exactly when one symbol class is empty or each class
    has exactly one value. *)
Theorem prueba_desviacion_cero_sii (norm : distribucion)
        (self : Prueba.objeto) (r : Prueba.resultado) (s : Prueba.objeto) :
  Prueba.ejecutar norm self = (Prueba.Dict_resultado r, s) ->
  (Prueba.r_sigma_B r = 0%R
   <-> (Prueba.r_n1 r = 0 \/ Prueba.r_n2 r = 0
        \/ (Prueba.r_n1 r = 1 /\ Prueba.r_n2 r = 1))%Z).
Proof.
  intros H.
  destruct (@ejecutar_prueba_es_resultado norm self r s H) as [-> Hl].
  unfold resultado_prueba.
  cbn [Prueba.r_sigma_B Prueba.r_n1 Prueba.r_n2].
  set (sim := simbolos_ge (Prueba.numeros self)).
  pose proof (count_total sim) as Ht.
  assert (Hlen : List.length sim = List.length (Prueba.numeros self))
    by apply length_map.
  rewrite Hlen in Ht.
  pose proof (count_no_negativo Mas sim) as P1.
  pose proof (count_no_negativo Menos sim) as P2.
  split.
  - intros Hs.
    destruct (Z.eq_dec (count Mas sim) 0) as [E1|E1]; [tauto|].
    destruct (Z.eq_dec (count Menos sim) 0) as [E2|E2]; [tauto|].
    destruct (Z.eq_dec (count Mas sim + count Menos sim) 2) as [E3|E3];
      [right; right; lia|].
    exfalso.
    assert (Hp : (0 < sigma2_formula (count Mas sim) (count Menos sim))%R)
      by (apply sigma2_pos; lia).
    apply sqrt_lt_R0 in Hp. lra.
  - intros Hc. rewrite sigma2_cero by exact Hc. apply sqrt_0.
Qed.

Lemma prueba_desviacion_cero_sii_witness :
  exists r s,
    Prueba.ejecutar norm_lineal (Prueba.__init__ [1#10; 9#10] (5/100)%R)
    = (Prueba.Dict_resultado r, s)
    /\ Prueba.r_sigma_B r = 0%R.
Proof.
  destruct (@ejecutar_prueba_resultado norm_lineal
              (Prueba.__init__ [1#10; 9#10] (5/100)%R)) as (s & E & _);
    [simpl; lia|].
  eexists. exists s. split; [exact E|].
  apply (proj2 (@prueba_desviacion_cero_sii norm_lineal _ _ _ E)).
  right. right. split; reflexivity.
Defined.
